(** * Fold orchestration of [train.py]: early stopping, checkpoints, telemetry
    and run-level aggregation.

    The development embeds the function [train] of [src/train.py] (and the
    "train all" branch of [main]) as Rocq functions.  Python floats are
    idealised as rationals [Q] (with one extra value for the [nan] that
    [np.mean] returns on an empty list); Python integers are [Z]; the loop
    indices produced by [range] and [enumerate] are [nat].

    Everything the loop delegates to other modules or libraries (model zoo,
    tensor library, validator, scheduler, data provider) is an interface,
    [World]; every call to a storage or telemetry collaborator is recorded,
    in program order, as an [Event]. *)

From Stdlib Require Import String Bool Arith List ZArith QArith Lia.
Import ListNotations.

Local Open Scope Z_scope.

(** ** Numbers *)

(** [a > b] on Python floats, for non-[nan] values. *)
Definition Qgt_bool (a b : Q) : bool := negb (Qle_bool a b).

(** The result of [np.mean]: a rational, or [nan] (empty input, or a [nan]
    among the inputs). *)
Inductive npfloat : Type :=
| NaN
| Fin (q : Q).

Definition Qsum (l : list Q) : Q := fold_right Qplus (0 # 1)%Q l.

(** [np.mean] of a list of finite floats. *)
Definition np_mean (l : list Q) : npfloat :=
  match l with
  | [] => NaN
  | _ :: _ => Fin (Qsum l / inject_Z (Z.of_nat (length l)))%Q
  end.

Fixpoint finite_values (l : list npfloat) : option (list Q) :=
  match l with
  | [] => Some []
  | NaN :: _ => None
  | Fin q :: t =>
      match finite_values t with
      | Some qs => Some (q :: qs)
      | None => None
      end
  end.

(** [np.mean] of a list whose entries are themselves results of [np.mean]. *)
Definition np_mean_f (l : list npfloat) : npfloat :=
  match finite_values l with
  | Some qs => np_mean qs
  | None => NaN
  end.

(** [enumerate(l)] *)
Definition enumerate {A : Type} (l : list A) : list (nat * A) :=
  combine (seq 0 (length l)) l.

(** [range(n)] for a Python integer [n]; empty when [n <= 0]. *)
Definition range (n : Z) : list nat := seq 0 (Z.to_nat n).

(** ** Plain data *)

(** The tuple returned by [validate]:
    [(val_loss, val_acc, val_precision, val_recall, val_f1)]. *)
Record ValMetrics : Type := mkVal {
  vm_loss : Q;
  vm_acc : Q;
  vm_precision : Q;
  vm_recall : Q;
  vm_f1 : Q
}.

(** The positional arguments shared by [log_metrics_to_wandb] and
    [log_metrics_to_tensorboard]. *)
Record EpochLog : Type := mkLog {
  lg_fold : nat;
  lg_train_loss : Q;
  lg_train_acc : Q;
  lg_val_loss : Q;
  lg_val_acc : Q;
  lg_val_precision : Q;
  lg_val_recall : Q;
  lg_val_f1 : Q;
  lg_lr : Q;
  lg_epoch : nat
}.

(** The per-fold history lists. *)
Record History : Type := mkHist {
  train_losses : list Q;
  val_losses : list Q;
  train_accs : list Q;
  val_accs : list Q;
  val_f1s : list Q;
  val_precisions : list Q;
  val_recalls : list Q
}.

Definition empty_history : History := mkHist [] [] [] [] [] [] [].

(** The seven [append] calls of lines 149-155. *)
Definition record_epoch (h : History) (train_loss train_acc : Q)
    (v : ValMetrics) : History :=
  mkHist (train_losses h ++ [train_loss])
         (val_losses h ++ [vm_loss v])
         (train_accs h ++ [train_acc])
         (val_accs h ++ [vm_acc v])
         (val_f1s h ++ [vm_f1 v])
         (val_precisions h ++ [vm_precision v])
         (val_recalls h ++ [vm_recall v]).

(** The dictionary appended to [fold_results]. *)
Record FoldResult : Type := mkFoldResult {
  fr_fold : nat;
  fr_best_val_acc : Q;
  fr_history : History
}.

Inductive CkKind : Type := BestCk | FinalCk.

(** [models/{run_name}_fold{N}_best.pth] and [..._final.pth]. *)
Record CkPath : Type := mkPath {
  ck_run : string;
  ck_fold : nat;
  ck_kind : CkKind
}.

(** The dictionary of the run-end [wandb.log]. *)
Record Summary : Type := mkSummary {
  average_val_acc : npfloat;
  average_val_f1 : npfloat;
  average_val_recall : npfloat;
  average_val_precision : npfloat
}.

(** The [config] of [wandb.init]. *)
Record RunConfig : Type := mkConfig {
  cfg_model : string;
  cfg_batch_size : Z;
  cfg_learning_rate : Q;
  cfg_epochs : Z;
  cfg_patience : Z
}.

Inductive Exn : Type :=
| UnboundLocalError (var : string)
| KeyError (key : string)
| ValueError.

Inductive Res (A : Type) : Type :=
| Ok (a : A)
| Raise (e : Exn).
Arguments Ok {A} a.
Arguments Raise {A} e.

(** ** The collaborators *)

(** What [train] imports and calls but does not define.  [train_one_epoch]
    and [scheduler.step] mutate the model and the optimizer in place; here
    they return the new values.  Every collaborator is taken to return: what
    is proved about [train] is about runs in which no call of a collaborator
    raises (in particular every loader yields at least one batch, so that
    neither [train_one_epoch], modelled on its own in [EpochTrainer], nor the
    [next(iter(train_loader))] of line 111 fails). *)
Class World : Type := {
  Model : Type;
  Optim : Type;
  Sched : Type;
  Loader : Type;
  (** [datetime.now().strftime(...)] *)
  timestamp : string;
  (** [get_kfold_data_loaders(CoffeeDataset(), batch_size=batch_size)] *)
  get_kfold_data_loaders : Z -> list (Loader * Loader);
  (** [len(full_dataset.classes)] *)
  num_classes : nat;
  (** [get_model(model_name, num_classes).to(device)] *)
  get_model : string -> nat -> Model;
  (** [optim.Adam(model.parameters(), lr=lr)] *)
  Adam : Model -> Q -> Optim;
  (** [ReduceLROnPlateau(optimizer, mode='min', factor=.., patience=..)] *)
  ReduceLROnPlateau : Optim -> Q -> Z -> Sched;
  (** [train_one_epoch(model, train_loader, criterion, optimizer, epoch, device)] *)
  train_one_epoch : Model -> Loader -> Optim -> nat -> Model * Optim * (Q * Q);
  (** [validate(model, val_loader, criterion, device)] *)
  validate : Model -> Loader -> ValMetrics;
  (** [scheduler.step(val_loss)] *)
  scheduler_step : Sched -> Optim -> Q -> Sched * Optim;
  (** [optimizer.param_groups[0]['lr']] *)
  current_lr : Optim -> Q;
  (** [perform_anova(accuracies)]: F-statistic, p-value and verdict *)
  perform_anova : list (string * list (list Q)) -> npfloat * npfloat * string
}.

Section Train.

Context {W : World}.

(** Calls to the storage and telemetry collaborators, with their arguments. *)
Inductive Event : Type :=
| WandbInit (name : string) (config : RunConfig)
| NewSummaryWriter (run_name : string)
| WandbWatch (m : Model)
| AddGraph (m : Model)
| LogMetricsToWandb (l : EpochLog) (use_wandb : bool)
| LogMetricsToTensorboard (l : EpochLog)
| SaveCheckpoint (m : Model) (o : Optim) (epoch : nat) (val_acc : Q)
    (path : CkPath)
| WandbSave (path : CkPath)
| WandbLog (s : Summary)
| WandbFinish
| WriterClose
| WandbInitAll (name : string) (batch_size : Z) (lr : Q) (epochs patience : Z)
| WandbLogAnova (f_stat p_value : npfloat) (result : string)
| WandbLogModel (name : string) (s : Summary).

(** The locals of one fold that the epoch loop reads and writes.
    [val_acc_var] is the local [val_acc]: unbound until [validate] has
    returned once. *)
Record FoldState : Type := mkFold {
  fs_model : Model;
  fs_optimizer : Optim;
  fs_scheduler : Sched;
  best_val_acc : Q;
  epochs_no_improve : Z;
  early_stop : bool;
  history : History;
  val_acc_var : option Q
}.

Section Fold.

Variables (run_name : string) (patience : Z) (use_wandb : bool).
Variables (fold : nat) (train_loader val_loader : Loader).

Definition best_path : CkPath := mkPath run_name (fold + 1) BestCk.
Definition final_path : CkPath := mkPath run_name (fold + 1) FinalCk.

(** Lines 142-146: train, validate, step the scheduler. *)
Definition epoch_run (epoch : nat) (s : FoldState)
  : Model * Optim * Sched * (Q * Q) * ValMetrics :=
  let '(m, o, tr) :=
    train_one_epoch (fs_model s) train_loader (fs_optimizer s) epoch in
  let v := validate m val_loader in
  let '(sc, o') := scheduler_step (fs_scheduler s) o (vm_loss v) in
  (m, o', sc, tr, v).

Definition epoch_val (epoch : nat) (s : FoldState) : ValMetrics :=
  snd (epoch_run epoch s).

(** The test of line 169 for the epoch entered in state [s]. *)
Definition improves (epoch : nat) (s : FoldState) : bool :=
  Qgt_bool (vm_acc (epoch_val epoch s)) (best_val_acc s).

Definition epoch_log (epoch : nat) (s : FoldState) : EpochLog :=
  let '(_, o, _, (train_loss, train_acc), v) := epoch_run epoch s in
  mkLog fold train_loss train_acc (vm_loss v) (vm_acc v) (vm_precision v)
        (vm_recall v) (vm_f1 v) (current_lr o) epoch.

(** Lines 157-161. *)
Definition log_events (l : EpochLog) : list Event :=
  LogMetricsToWandb l use_wandb
  :: (if use_wandb then [] else [LogMetricsToTensorboard l]).

(** Lines 172-177, when the accuracy improved. *)
Definition best_events (m : Model) (o : Optim) (epoch : nat) (val_acc : Q)
  : list Event :=
  SaveCheckpoint m o epoch val_acc best_path
  :: (if use_wandb then [WandbSave best_path] else []).

(** Lines 185-187. *)
Definition check_early_stop (counter : Z) (flag : bool) : bool :=
  if patience <=? counter then true else flag.

(** One pass through the loop body, lines 138-187. *)
Definition epoch_body (epoch : nat) (s : FoldState)
  : FoldState * list Event :=
  let '(m, o, sc, (train_loss, train_acc), v) := epoch_run epoch s in
  let h := record_epoch (history s) train_loss train_acc v in
  let logs := log_events (epoch_log epoch s) in
  if Qgt_bool (vm_acc v) (best_val_acc s) then
    (mkFold m o sc (vm_acc v) 0 (check_early_stop 0 (early_stop s)) h
            (Some (vm_acc v)),
     logs ++ best_events m o epoch (vm_acc v))
  else
    let n := epochs_no_improve s + 1 in
    (mkFold m o sc (best_val_acc s) n (check_early_stop n (early_stop s)) h
            (Some (vm_acc v)),
     logs).

(** What the loop leaves behind: the binding of the loop variable [epoch],
    the fold's locals, and the calls made. *)
Record LoopExit : Type := mkExit {
  epoch_var : option nat;
  exit_state : FoldState;
  loop_events : list Event
}.

(** [for epoch in range(epochs): if early_stop: break; ...].  The loop
    variable is bound before the body, hence before the [break] test. *)
Fixpoint epoch_loop (es : list nat) (cur : option nat) (s : FoldState)
  : LoopExit :=
  match es with
  | [] => mkExit cur s []
  | epoch :: rest =>
      if early_stop s then mkExit (Some epoch) s []
      else
        let '(s', evs) := epoch_body epoch s in
        let r := epoch_loop rest (Some epoch) s' in
        mkExit (epoch_var r) (exit_state r) (evs ++ loop_events r)
  end.

(** The number of passes through the loop body. *)
Fixpoint executed (es : list nat) (s : FoldState) : nat :=
  match es with
  | [] => 0
  | epoch :: rest =>
      if early_stop s then 0%nat
      else S (executed rest (fst (epoch_body epoch s)))
  end.

(** The fold's locals and calls when the loop is given a budget of [n]
    epochs: the state in which epoch [n] of a longer loop is entered. *)
Definition state_after (n : nat) (s : FoldState) : FoldState :=
  exit_state (epoch_loop (seq 0 n) None s).

Definition events_after (n : nat) (s : FoldState) : list Event :=
  loop_events (epoch_loop (seq 0 n) None s).

(** Lines 104-124 and 127-130: the fold's model, optimizer, scheduler and
    locals.  The local [val_acc] keeps whatever binding an earlier fold left. *)
Definition fold_init (model_name : string) (lr : Q) (val_acc_in : option Q)
  : FoldState :=
  let model := get_model model_name num_classes in
  let optimizer := Adam model lr in
  let scheduler := ReduceLROnPlateau optimizer (1 # 2)%Q 3 in
  mkFold model optimizer scheduler (0 # 1)%Q 0 false empty_history val_acc_in.

(** Lines 108-112. *)
Definition setup_events (m : Model) : list Event :=
  if use_wandb then [WandbWatch m] else [AddGraph m].

(** Lines 214-218. *)
Definition final_events (m : Model) (o : Optim) (epoch : nat) (val_acc : Q)
  : list Event :=
  SaveCheckpoint m o epoch val_acc final_path
  :: (if use_wandb then [WandbSave final_path] else []).

(** What one iteration of the loop over folds hands to the next one. *)
Record FoldExit : Type := mkFoldExit {
  fe_result : FoldResult;
  fe_avg_val_f1 : npfloat;
  fe_avg_val_recall : npfloat;
  fe_avg_val_precision : npfloat;
  fe_epoch : option nat;
  fe_val_acc : option Q
}.

Definition fold_exit_state (model_name : string) (lr : Q) (epochs : Z)
    (epoch_in : option nat) (val_acc_in : option Q) : LoopExit :=
  epoch_loop (range epochs) epoch_in (fold_init model_name lr val_acc_in).

(** The body of the loop over folds, lines 101-218.  Reading an unbound
    local raises; the arguments of [save_checkpoint] are evaluated from left
    to right. *)
Definition run_fold (model_name : string) (lr : Q) (epochs : Z)
    (epoch_in : option nat) (val_acc_in : option Q)
  : list Event * Res FoldExit :=
  let s0 := fold_init model_name lr val_acc_in in
  let r := fold_exit_state model_name lr epochs epoch_in val_acc_in in
  let s := exit_state r in
  let evs := setup_events (fs_model s0) ++ loop_events r in
  let avg_val_f1 := np_mean (val_f1s (history s)) in
  let avg_val_recall := np_mean (val_recalls (history s)) in
  let avg_val_precision := np_mean (val_precisions (history s)) in
  let result := mkFoldResult (fold + 1) (best_val_acc s) (history s) in
  match epoch_var r with
  | None => (evs, Raise (UnboundLocalError "epoch"))
  | Some epoch =>
      match val_acc_var s with
      | None => (evs, Raise (UnboundLocalError "val_acc"))
      | Some val_acc =>
          (evs ++ final_events (fs_model s) (fs_optimizer s) epoch val_acc,
           Ok (mkFoldExit result avg_val_f1 avg_val_recall avg_val_precision
                          (Some epoch) (Some val_acc)))
      end
  end.

End Fold.

(** The accumulators of lines 94-97, and the two locals that outlive a
    fold. *)
Record RunState : Type := mkRun {
  fold_results : list FoldResult;
  avg_val_f1_list : list npfloat;
  avg_val_recall_list : list npfloat;
  avg_val_precision_list : list npfloat;
  run_epoch : option nat;
  run_val_acc : option Q
}.

Definition run_init : RunState := mkRun [] [] [] [] None None.

Definition run_append (r : RunState) (e : FoldExit) : RunState :=
  mkRun (fold_results r ++ [fe_result e])
        (avg_val_f1_list r ++ [fe_avg_val_f1 e])
        (avg_val_recall_list r ++ [fe_avg_val_recall e])
        (avg_val_precision_list r ++ [fe_avg_val_precision e])
        (fe_epoch e) (fe_val_acc e).

(** What [train] returns, line 247. *)
Record TrainResult : Type := mkTrainResult {
  tr_fold_results : list FoldResult;
  tr_avg_val_acc : npfloat;
  tr_avg_val_f1 : npfloat;
  tr_avg_val_recall : npfloat;
  tr_avg_val_precision : npfloat
}.

Section Run.

Variables (model_name : string) (batch_size : Z) (lr : Q).
Variables (epochs patience : Z) (use_wandb : bool).

Definition run_name : string := (model_name ++ "_" ++ timestamp)%string.

(** [for fold, (train_loader, val_loader) in enumerate(fold_loaders)] *)
Fixpoint fold_loop (fs : list (nat * (Loader * Loader))) (r : RunState)
  : list Event * Res RunState :=
  match fs with
  | [] => ([], Ok r)
  | (fold, (train_loader, val_loader)) :: rest =>
      match run_fold run_name patience use_wandb fold train_loader val_loader
                     model_name lr epochs (run_epoch r) (run_val_acc r) with
      | (evs, Raise e) => (evs, Raise e)
      | (evs, Ok x) =>
          let '(evs', res) := fold_loop rest (run_append r x) in
          (evs ++ evs', res)
      end
  end.

(** Lines 60-76. *)
Definition init_events : list Event :=
  if use_wandb
  then [WandbInit run_name (mkConfig model_name batch_size lr epochs patience)]
  else [NewSummaryWriter run_name].

(** Lines 220-234. *)
Definition summarize (r : RunState) : TrainResult :=
  mkTrainResult (fold_results r)
                (np_mean (map fr_best_val_acc (fold_results r)))
                (np_mean_f (avg_val_f1_list r))
                (np_mean_f (avg_val_recall_list r))
                (np_mean_f (avg_val_precision_list r)).

(** Lines 236-245. *)
Definition finish_events (t : TrainResult) : list Event :=
  if use_wandb
  then [WandbLog (mkSummary (tr_avg_val_acc t) (tr_avg_val_f1 t)
                            (tr_avg_val_recall t) (tr_avg_val_precision t));
        WandbFinish]
  else [WriterClose].

(** [train(model_name, batch_size, lr, epochs, patience, device_override,
    use_wandb)].  The device is only handed on to the collaborators and is
    left out. *)
Definition train : list Event * Res TrainResult :=
  let fold_loaders := get_kfold_data_loaders batch_size in
  match fold_loop (enumerate fold_loaders) run_init with
  | (evs, Raise e) => (init_events ++ evs, Raise e)
  | (evs, Ok r) =>
      let t := summarize r in
      (init_events ++ evs ++ finish_events t, Ok t)
  end.

End Run.

(** *** The "train all" branch of [main] *)

Definition all_models : list string :=
  ["efficientnet"; "resnet50"; "mobilenetv3"; "densenet121"; "vit";
   "convnext"; "regnet"]%string.

(** A Python dictionary with string keys, in insertion order. *)
Definition dict (V : Type) : Type := list (string * V).

(** [d[k] = v] *)
Fixpoint dict_set {V : Type} (d : dict V) (k : string) (v : V) : dict V :=
  match d with
  | [] => [(k, v)]
  | (k', v') :: t =>
      if String.eqb k' k then (k', v) :: t else (k', v') :: dict_set t k v
  end.

(** [d[k]] *)
Fixpoint dict_get {V : Type} (d : dict V) (k : string) : option V :=
  match d with
  | [] => None
  | (k', v) :: t => if String.eqb k' k then Some v else dict_get t k
  end.

(** Whether the lists have one length, so that they are the rows of an
    array. *)
Definition same_lengths (ls : list (list Q)) : bool :=
  match ls with
  | [] => true
  | l :: t => forallb (fun l' => Nat.eqb (length l') (length l)) t
  end.

(** [np.mean] of a list of lists, as line 312 calls it: the lists are made
    the rows of an array and the mean is taken over all its entries; lists
    of different lengths are refused ([ValueError] since NumPy 1.24; older
    versions fail in the same call with a [TypeError]). *)
Definition np_mean_rows (ls : list (list Q)) : Res npfloat :=
  if same_lengths ls then Ok (np_mean (concat ls)) else Raise ValueError.

(** The dictionaries of lines 269-273. *)
Record AllState : Type := mkAll {
  results : dict Summary;
  accuracies : dict (list (list Q));
  f1_scores : dict (list (list Q));
  precisions : dict (list (list Q));
  recalls : dict (list (list Q))
}.

Definition all_init : AllState :=
  let empty := map (fun m => (m, @nil (list Q))) all_models in
  mkAll [] empty empty empty empty.

Section All.

Variables (batch_size : Z) (lr : Q) (epochs patience : Z) (no_wandb : bool).

(** Lines 297-306. *)
Definition all_record (st : AllState) (model_name : string) (t : TrainResult)
  : AllState :=
  let per_fold (f : History -> list Q) :=
    map (fun r => f (fr_history r)) (tr_fold_results t) in
  mkAll (dict_set (results st) model_name
           (mkSummary (tr_avg_val_acc t) (tr_avg_val_f1 t)
                      (tr_avg_val_recall t) (tr_avg_val_precision t)))
        (dict_set (accuracies st) model_name (per_fold val_accs))
        (dict_set (f1_scores st) model_name (per_fold val_f1s))
        (dict_set (precisions st) model_name (per_fold val_precisions))
        (dict_set (recalls st) model_name (per_fold val_recalls)).

(** [for model_name in all_models], lines 275-308. *)
Fixpoint models_loop (ms : list string) (st : AllState)
  : list Event * Res AllState :=
  match ms with
  | [] => ([], Ok st)
  | model_name :: rest =>
      let ev0 :=
        if no_wandb then []
        else [WandbInitAll model_name batch_size lr epochs patience] in
      match train model_name batch_size lr epochs patience (negb no_wandb) with
      | (evs, Raise e) => (ev0 ++ evs, Raise e)
      | (evs, Ok t) =>
          let '(evs', res) := models_loop rest (all_record st model_name t) in
          (ev0 ++ evs ++ evs', res)
      end
  end.

(** Lines 325-331: one [wandb.log] per model, reading [results]. *)
Fixpoint model_logs (rs : dict Summary) (ms : list string)
  : list Event * Res unit :=
  match ms with
  | [] => ([], Ok tt)
  | m :: rest =>
      match dict_get rs m with
      | None => ([], Raise (KeyError m))
      | Some s =>
          let '(evs, res) := model_logs rs rest in
          (WandbLogModel m s :: evs, res)
      end
  end.

(** Lines 310-312: the precision and recall printed for each entry of
    [results], in insertion order. *)
Fixpoint summary_lines (st : AllState) (rs : dict Summary)
  : Res (list (string * npfloat * npfloat)) :=
  match rs with
  | [] => Ok []
  | (model_name, _) :: rest =>
      match dict_get (precisions st) model_name with
      | None => Raise (KeyError model_name)
      | Some ps =>
          match np_mean_rows ps with
          | Raise e => Raise e
          | Ok p =>
              match dict_get (recalls st) model_name with
              | None => Raise (KeyError model_name)
              | Some rc =>
                  match np_mean_rows rc with
                  | Raise e => Raise e
                  | Ok r =>
                      match summary_lines st rest with
                      | Raise e => Raise e
                      | Ok lines => Ok ((model_name, p, r) :: lines)
                      end
                  end
              end
          end
      end
  end.

(** Lines 267-334. *)
Definition main_all
  : list Event * Res (AllState * (npfloat * npfloat * string)) :=
  match models_loop all_models all_init with
  | (evs, Raise e) => (evs, Raise e)
  | (evs, Ok st) =>
      match summary_lines st (results st) with
      | Raise e => (evs, Raise e)
      | Ok _ =>
          let '(f_stat, p_value, anova_result) :=
            perform_anova (accuracies st) in
          if no_wandb then (evs, Ok (st, (f_stat, p_value, anova_result)))
          else
            match model_logs (results st) all_models with
            | (evs', Raise e) =>
                (evs ++ WandbLogAnova f_stat p_value anova_result :: evs',
                 Raise e)
            | (evs', Ok _) =>
                (evs ++ WandbLogAnova f_stat p_value anova_result :: evs'
                     ++ [WandbFinish],
                 Ok (st, (f_stat, p_value, anova_result)))
            end
      end
  end.

End All.

End Train.

(** ** A scripted world

    The validator replays a table: the model is the pair (fold, number of
    epochs trained); the optimizer is its learning rate; the scheduler is
    inert. *)
Module Script.

Definition table := list (list Q).

Definition acc_at (t : table) (fold epochs_trained : nat) : Q :=
  nth (epochs_trained - 1) (nth fold t []) (0 # 1)%Q.

Definition world (t : table) : World := {|
  Model := nat * nat;
  Optim := Q;
  Sched := unit;
  Loader := nat;
  timestamp := "20240101-0000";
  get_kfold_data_loaders := fun _ => map (fun i => (i, i)) (seq 0 (length t));
  num_classes := 4;
  get_model := fun _ _ => (0%nat, 0%nat);
  Adam := fun _ lr => lr;
  ReduceLROnPlateau := fun _ _ _ => tt;
  train_one_epoch := fun m loader o epoch =>
    ((loader, S (snd m)), o, ((1 # 1)%Q, (50 # 1)%Q));
  validate := fun m loader =>
    mkVal (1 # 1)%Q (acc_at t loader (snd m)) (1 # 2)%Q (1 # 4)%Q (1 # 3)%Q;
  scheduler_step := fun sc o _ => (sc, o);
  current_lr := fun o => o;
  perform_anova := fun _ => (NaN, NaN, ""%string)
|}.

(** The scenario of section 8 of the specification: one fold whose
    validation accuracies are 70, 72, 72, 71, 69. *)
Definition spec_scenario : World :=
  world [[70 # 1; 72 # 1; 72 # 1; 71 # 1; 69 # 1]]%Q.

(** One fold that never classifies anything right. *)
Definition zero_scenario : World := world [[0 # 1; 0 # 1; 0 # 1]]%Q.

(** Two folds of different lengths. *)
Definition two_folds : World :=
  world [[70 # 1; 72 # 1; 72 # 1; 71 # 1; 69 # 1]; [50 # 1; 60 # 1]]%Q.

End Script.

(** ** Vocabulary of the specification *)

(** [b] is the best validation accuracy seen in a fold whose accuracies so
    far are [h]: the largest of the initial [0.0] and the entries of [h]. *)
Definition is_best_seen (h : list Q) (b : Q) : Prop :=
  (0 <= b)%Q /\ Forall (fun u => (u <= b)%Q) h /\ (b = (0 # 1)%Q \/ In b h).

(** One left-to-right pass over an accuracy history: the running best, the
    number of epochs read, and the (1-based) epoch of the last strict
    improvement, [0] when there was none. *)
Definition scan_step (a : Q * nat * nat) (v : Q) : Q * nat * nat :=
  let '(best, n, last) := a in
  if Qgt_bool v best then (v, S n, S n) else (best, S n, last).

Definition scan (h : list Q) : Q * nat * nat :=
  fold_left scan_step h ((0 # 1)%Q, 0%nat, 0%nat).

Definition last_improvement (h : list Q) : nat := snd (scan h).

Definition accs {W : World} (s : FoldState) : list Q := val_accs (history s).

(** The early-stopping locals agree with the fold's accuracy history. *)
Definition tracks_history {W : World} (s : FoldState) : Prop :=
  is_best_seen (accs s) (best_val_acc s) /\
  fst (scan (accs s)) = (best_val_acc s, length (accs s)) /\
  epochs_no_improve s =
    Z.of_nat (length (accs s)) - Z.of_nat (last_improvement (accs s)) /\
  0 <= epochs_no_improve s.

(** The local [val_acc] holds the last entry of the accuracy history. *)
Definition holds_last {W : World} (s : FoldState) : Prop :=
  exists h v, accs s = h ++ [v] /\ val_acc_var s = Some v.

(** The accuracy samples of one architecture: for each fold, the
    validation accuracy of every epoch that ran. *)
Definition accuracy_samples (t : TrainResult) : list (list Q) :=
  map (fun x => val_accs (fr_history x)) (tr_fold_results t).

(** The rows that line 312 averages for one architecture: for each fold,
    the validation precision of every epoch that ran. *)
Definition precision_samples (t : TrainResult) : list (list Q) :=
  map (fun x => val_precisions (fr_history x)) (tr_fold_results t).





(** The flag is up exactly when the counter has reached the patience, and
    the counter never passes it. *)
Definition stops_at_patience {W : World} (patience : Z) (s : FoldState)
  : Prop :=
  (early_stop s = true <-> epochs_no_improve s = patience) /\
  epochs_no_improve s <= patience.

Definition kind_eqb (a b : CkKind) : bool :=
  match a, b with
  | BestCk, BestCk | FinalCk, FinalCk => true
  | _, _ => false
  end.

Section Observations.

Context {W : World}.

(** The [save_checkpoint] calls of one kind among a list of calls. *)
Definition is_save (k : CkKind) (ev : Event) : bool :=
  match ev with
  | SaveCheckpoint _ _ _ _ p => kind_eqb (ck_kind p) k
  | _ => false
  end.

Definition saves (k : CkKind) (evs : list Event) : list Event :=
  filter (is_save k) evs.

(** The [save_checkpoint] calls of one kind for one fold number. *)
Definition is_save_for (k : CkKind) (fold_number : nat) (ev : Event) : bool :=
  match ev with
  | SaveCheckpoint _ _ _ _ p =>
      kind_eqb (ck_kind p) k && Nat.eqb (ck_fold p) fold_number
  | _ => false
  end.

(** A metric message as a telemetry backend receives it. *)
Inductive Metric : Type :=
| EpochMetrics (l : EpochLog)
| RunSummary (s : Summary).

(** Modelled from the spec: [log_metrics_to_wandb] (module [utils], not
    among the sources) sends the per-epoch schema of section 6 to the
    tracking service when its last argument [use_wandb] is true and does
    nothing otherwise; the tracking service also receives what [wandb.log]
    is called with. *)
Definition remote_received (ev : Event) : list Metric :=
  match ev with
  | LogMetricsToWandb l true => [EpochMetrics l]
  | WandbLog s => [RunSummary s]
  | _ => []
  end.

(** Modelled from the spec: [log_metrics_to_tensorboard] (module [utils],
    not among the sources) writes the same per-epoch schema to the local
    log writer. *)
Definition local_received (ev : Event) : list Metric :=
  match ev with
  | LogMetricsToTensorboard l => [EpochMetrics l]
  | _ => []
  end.

(** The validation accuracy that a metric message reports, if any. *)
Definition metric_acc (m : Metric) : list Q :=
  match m with
  | EpochMetrics l => [lg_val_acc l]
  | RunSummary _ => []
  end.

(** The run summary that [train] logs at run end. *)
Definition summary_of (t : TrainResult) : Summary :=
  mkSummary (tr_avg_val_acc t) (tr_avg_val_f1 t) (tr_avg_val_recall t)
            (tr_avg_val_precision t).

Definition remote_metrics (evs : list Event) : list Metric :=
  flat_map remote_received evs.

Definition local_metrics (evs : list Event) : list Metric :=
  flat_map local_received evs.

End Observations.

(** ** The epoch trainer, [train_one_epoch]

    The gradient step on one batch (lines 28-37) belongs to the tensor
    library and is a parameter; the statistics, the progress lines and the
    two final divisions are the function's own. *)
Module EpochTrainer.

Inductive ArithExn : Type := ZeroDivisionError.

(** The arguments of the [print] of lines 46-48, before formatting. *)
Record Progress : Type := mkProgress {
  pr_epoch : nat;
  pr_batch : nat;
  pr_batches : nat;
  pr_loss : Q;
  pr_acc : Q
}.

Section Trainer.

Context {W : World}.
Variable Batch : Type.
(** The batches that iterating the loader yields; [len(train_loader)] is
    their number. *)
Variable batches : Loader -> list Batch.
(** Lines 28-43 on one batch: the updated model and optimizer,
    [loss.item()], [predicted.eq(labels).sum().item()], [labels.size(0)]. *)
Variable train_batch : Model -> Optim -> Batch -> Model * Optim * (Q * Z * Z).

(** The locals of the loop over the batches. *)
Record Running : Type := mkRunning {
  run_model : Model;
  run_optimizer : Optim;
  running_loss : Q;
  correct : Z;
  total : Z
}.

(** [100. * correct / total] *)
Definition percentage (correct total : Z) : Q :=
  ((100 # 1) * inject_Z correct / inject_Z total)%Q.

(** Lines 27-48, from batch index [i] on. *)
Fixpoint batch_loop (epoch n i : nat) (bs : list Batch) (r : Running)
  : list Progress * (Running + ArithExn) :=
  match bs with
  | [] => ([], inl r)
  | b :: rest =>
      let '(m, o, (loss, c, size)) :=
        train_batch (run_model r) (run_optimizer r) b in
      let r' := mkRunning m o (running_loss r + loss)%Q (correct r + c)
                          (total r + size) in
      if ((i + 1) mod 10 =? 0)%nat then
        if total r' =? 0 then ([], inr ZeroDivisionError)
        else
          let line :=
            mkProgress (epoch + 1) (i + 1) n
                       (running_loss r' / inject_Z (Z.of_nat (i + 1)))%Q
                       (percentage (correct r') (total r')) in
          let '(lines, res) := batch_loop epoch n (S i) rest r' in
          (line :: lines, res)
      else batch_loop epoch n (S i) rest r'
  end.

(** [train_one_epoch(model, train_loader, criterion, optimizer, epoch,
    device)], lines 20-52. *)
Definition train_one_epoch (model : Model) (train_loader : Loader)
    (optimizer : Optim) (epoch : nat)
  : list Progress * (Model * Optim * (Q * Q) + ArithExn) :=
  let bs := batches train_loader in
  let n := length bs in
  match batch_loop epoch n 0 bs
          (mkRunning model optimizer (0 # 1)%Q 0 0) with
  | (lines, inr e) => (lines, inr e)
  | (lines, inl r) =>
      if (n =? 0)%nat then (lines, inr ZeroDivisionError)
      else if total r =? 0 then (lines, inr ZeroDivisionError)
      else
        (lines,
         inl (run_model r, run_optimizer r,
              ((running_loss r / inject_Z (Z.of_nat n))%Q,
               percentage (correct r) (total r))))
  end.

(** Every batch of the loader reports at least one sample, and no more
    correct predictions than samples. *)
Definition counts_samples (train_loader : Loader) : Prop :=
  forall m o b,
    In b (batches train_loader) ->
    let '(_, _, (_, c, size)) := train_batch m o b in
    0 <= c <= size /\ 0 < size.

(** The batch numbers at which a progress line is due among [n] batches. *)
Definition progress_batches (n : nat) : list nat :=
  filter (fun j => (j mod 10 =? 0)%nat) (seq 1 n).

End Trainer.

End EpochTrainer.

(** A scripted trainer: a batch is its pair (correct predictions, size);
    every batch has loss 1/2. *)
Module ScriptTrainer.

Definition batches (bs : list (Z * Z)) (_ : @Loader (Script.world [])) :=
  bs.

Definition train_batch (m : @Model (Script.world []))
    (o : @Optim (Script.world [])) (b : Z * Z)
  : @Model (Script.world []) * @Optim (Script.world []) * (Q * Z * Z) :=
  (m, o, ((1 # 2)%Q, fst b, snd b)).

End ScriptTrainer.

(** Two folds that run different numbers of epochs under a patience of 2:
    the first stops after 4 epochs, the second uses a budget of 5. *)
Definition ragged_folds : World :=
  Script.world [[70 # 1; 72 # 1; 72 # 1; 71 # 1; 69 # 1];
                [50 # 1; 60 # 1; 70 # 1; 80 # 1; 90 # 1]]%Q.

(** ** More vocabulary: calls by backend, paths, logged epochs *)

Section Calls.

Context {W : World}.

(** Direct calls of the tracking service's API. *)
Definition is_wandb_api (ev : Event) : bool :=
  match ev with
  | WandbInit _ _ | WandbWatch _ | WandbSave _ | WandbLog _ | WandbFinish
  | WandbInitAll _ _ _ _ _ | WandbLogAnova _ _ _ | WandbLogModel _ _ => true
  | _ => false
  end.

(** Calls that go to the local log writer. *)
Definition is_writer_call (ev : Event) : bool :=
  match ev with
  | NewSummaryWriter _ | AddGraph _ | LogMetricsToTensorboard _
  | WriterClose => true
  | _ => false
  end.

(** The calls that end a run. *)
Definition is_closing (ev : Event) : bool :=
  match ev with
  | WandbLog _ | WandbFinish | WriterClose => true
  | _ => false
  end.

(** The flag that [log_metrics_to_wandb] was called with, if it is one. *)
Definition wandb_flags (ev : Event) : list bool :=
  match ev with
  | LogMetricsToWandb _ b => [b]
  | _ => []
  end.

(** The paths written by [save_checkpoint] and those uploaded by
    [wandb.save], in call order. *)
Definition saved_path (ev : Event) : list CkPath :=
  match ev with
  | SaveCheckpoint _ _ _ _ p => [p]
  | _ => []
  end.

Definition uploaded_path (ev : Event) : list CkPath :=
  match ev with
  | WandbSave p => [p]
  | _ => []
  end.

(** The accuracy stored by each "best" checkpoint, in call order. *)
Definition best_saved_acc (ev : Event) : list Q :=
  match ev with
  | SaveCheckpoint _ _ _ v p =>
      match ck_kind p with BestCk => [v] | FinalCk => [] end
  | _ => []
  end.

(** The fold number of each "final" checkpoint written, in call order. *)
Definition final_fold (ev : Event) : list nat :=
  match ev with
  | SaveCheckpoint _ _ _ _ p =>
      match ck_kind p with FinalCk => [ck_fold p] | BestCk => [] end
  | _ => []
  end.

(** The argument tuples of the calls of [log_metrics_to_wandb]. *)
Definition epoch_logged (ev : Event) : list EpochLog :=
  match ev with
  | LogMetricsToWandb l _ => [l]
  | _ => []
  end.

(** A property of call lists that holds of the empty list and of
    concatenations. *)
Definition app_closed (P : list Event -> Prop) : Prop :=
  P [] /\ forall a b, P a -> P b -> P (a ++ b).

End Calls.

(** The history lists that a sequence of logged epochs amounts to. *)
Definition logged_history (h : History) (ls : list EpochLog) : History :=
  mkHist (train_losses h ++ map lg_train_loss ls)
         (val_losses h ++ map lg_val_loss ls)
         (train_accs h ++ map lg_train_acc ls)
         (val_accs h ++ map lg_val_acc ls)
         (val_f1s h ++ map lg_val_f1 ls)
         (val_precisions h ++ map lg_val_precision ls)
         (val_recalls h ++ map lg_val_recall ls).

(** A strictly increasing list of accuracies. *)
Fixpoint increasing (l : list Q) : Prop :=
  match l with
  | [] => True
  | a :: t =>
      match t with
      | [] => True
      | b :: _ => (a < b)%Q /\ increasing t
      end
  end.

(** ** Facts about the numbers *)

Lemma Qgt_bool_true (a b : Q) : Qgt_bool a b = true <-> (b < a)%Q.
Proof.
  unfold Qgt_bool. rewrite negb_true_iff. split.
  - intros H. apply Qnot_le_lt. intros Hle.
    apply Qle_bool_iff in Hle. congruence.
  - intros H. destruct (Qle_bool a b) eqn:E; [|reflexivity].
    apply Qle_bool_iff in E. exfalso. exact (Qlt_not_le _ _ H E).
Qed.

Lemma Qgt_bool_false (a b : Q) : Qgt_bool a b = false <-> (a <= b)%Q.
Proof.
  unfold Qgt_bool. rewrite negb_false_iff. apply Qle_bool_iff.
Qed.

Lemma Qgt_bool_cases (a b : Q) :
  (Qgt_bool a b = true /\ (b < a)%Q) \/ (Qgt_bool a b = false /\ (a <= b)%Q).
Proof.
  destruct (Qgt_bool a b) eqn:E.
  - left. split; [reflexivity|]. now apply Qgt_bool_true.
  - right. split; [reflexivity|]. now apply Qgt_bool_false.
Qed.

(** ** One epoch *)

Section EpochFacts.

Context {W : World}.
Variables (run_name : string) (patience : Z) (use_wandb : bool).
Variables (fold : nat) (train_loader val_loader : Loader).

Local Abbreviation body :=
  (epoch_body run_name patience use_wandb fold train_loader val_loader).
Local Abbreviation val := (epoch_val train_loader val_loader).
Local Abbreviation log := (epoch_log fold train_loader val_loader).
Local Abbreviation improves := (improves train_loader val_loader).

Lemma body_best epoch s :
  best_val_acc (fst (body epoch s)) =
  if improves epoch s then vm_acc (val epoch s) else best_val_acc s.
Proof.
  unfold improves, epoch_body, epoch_val.
  destruct (epoch_run _ _ _ _) as [[[[m o] sc] [tl ta]] v]. simpl.
  destruct (Qgt_bool _ _); reflexivity.
Qed.

Lemma body_counter epoch s :
  epochs_no_improve (fst (body epoch s)) =
  if improves epoch s then 0 else epochs_no_improve s + 1.
Proof.
  unfold improves, epoch_body, epoch_val.
  destruct (epoch_run _ _ _ _) as [[[[m o] sc] [tl ta]] v]. simpl.
  destruct (Qgt_bool _ _); reflexivity.
Qed.

Lemma body_early_stop epoch s :
  early_stop (fst (body epoch s)) =
  check_early_stop patience (epochs_no_improve (fst (body epoch s)))
                   (early_stop s).
Proof.
  unfold epoch_body.
  destruct (epoch_run _ _ _ _) as [[[[m o] sc] [tl ta]] v]. simpl.
  destruct (Qgt_bool _ _); reflexivity.
Qed.

Lemma body_history epoch s :
  history (fst (body epoch s)) =
  record_epoch (history s) (lg_train_loss (log epoch s))
               (lg_train_acc (log epoch s)) (val epoch s).
Proof.
  unfold epoch_body, epoch_val, epoch_log.
  destruct (epoch_run _ _ _ _) as [[[[m o] sc] [tl ta]] v]. simpl.
  destruct (Qgt_bool _ _); reflexivity.
Qed.

Lemma body_val_acc_var epoch s :
  val_acc_var (fst (body epoch s)) = Some (vm_acc (val epoch s)).
Proof.
  unfold epoch_body, epoch_val.
  destruct (epoch_run _ _ _ _) as [[[[m o] sc] [tl ta]] v]. simpl.
  destruct (Qgt_bool _ _); reflexivity.
Qed.

Lemma body_events epoch s :
  snd (body epoch s) =
  log_events use_wandb (log epoch s) ++
  (if improves epoch s
   then best_events run_name use_wandb fold (fs_model (fst (body epoch s)))
          (fs_optimizer (fst (body epoch s))) epoch (vm_acc (val epoch s))
   else []).
Proof.
  unfold improves, epoch_body, epoch_val.
  destruct (epoch_run _ _ _ _) as [[[[m o] sc] [tl ta]] v]. simpl.
  destruct (Qgt_bool _ _); simpl; [reflexivity|].
  destruct use_wandb; reflexivity.
Qed.

Lemma log_val_acc epoch s : lg_val_acc (log epoch s) = vm_acc (val epoch s).
Proof.
  unfold epoch_log, epoch_val.
  destruct (epoch_run _ _ _ _) as [[[[m o] sc] [tl ta]] v]. reflexivity.
Qed.

End EpochFacts.

(** ** The epoch loop *)

Section LoopFacts.

Context {W : World}.
Variables (run_name : string) (patience : Z) (use_wandb : bool).
Variables (fold : nat) (train_loader val_loader : Loader).

Local Abbreviation body :=
  (epoch_body run_name patience use_wandb fold train_loader val_loader).
Local Abbreviation loop :=
  (epoch_loop run_name patience use_wandb fold train_loader val_loader).
Local Abbreviation after :=
  (state_after run_name patience use_wandb fold train_loader val_loader).
Local Abbreviation evs_after :=
  (events_after run_name patience use_wandb fold train_loader val_loader).
Local Abbreviation val := (epoch_val train_loader val_loader).
Local Abbreviation improves := (improves train_loader val_loader).

Lemma loop_stopped es c s :
  early_stop s = true ->
  exit_state (loop es c s) = s /\ loop_events (loop es c s) = [].
Proof.
  intros H. destruct es as [|e es]; simpl; [auto|].
  rewrite H. auto.
Qed.

Lemma loop_cur_irrelevant es c c' s :
  exit_state (loop es c s) = exit_state (loop es c' s) /\
  loop_events (loop es c s) = loop_events (loop es c' s).
Proof.
  destruct es as [|e es]; simpl; [auto|].
  destruct (early_stop s); [auto|].
  destruct (body e s) as [s' evs]. auto.
Qed.

Lemma loop_app l1 l2 c c' s :
  exit_state (loop (l1 ++ l2) c s) =
    exit_state (loop l2 c' (exit_state (loop l1 c s))) /\
  loop_events (loop (l1 ++ l2) c s) =
    loop_events (loop l1 c s) ++
    loop_events (loop l2 c' (exit_state (loop l1 c s))).
Proof.
  revert c s. induction l1 as [|e l1 IH]; intros c s.
  - simpl. apply loop_cur_irrelevant.
  - simpl. destruct (early_stop s) eqn:E.
    + simpl. destruct (loop_stopped l2 c' s E) as [-> ->]. auto.
    + destruct (body e s) as [s' evs]. simpl.
      destruct (IH (Some e) s') as [-> ->].
      rewrite app_assoc. auto.
Qed.

Lemma after_0 s : after 0 s = s.
Proof. reflexivity. Qed.

Lemma evs_after_0 s : evs_after 0 s = [].
Proof. reflexivity. Qed.

(** A budget of [n + 1] epochs extends a budget of [n] by one pass through
    the body, unless the early-stop flag is up. *)
Lemma after_S n s :
  after (S n) s =
  if early_stop (after n s) then after n s else fst (body n (after n s)).
Proof.
  unfold state_after. rewrite seq_S. simpl.
  destruct (loop_app (seq 0 n) [n] None None s) as [-> _]. simpl.
  destruct (early_stop _); [reflexivity|].
  destruct (body n _); reflexivity.
Qed.

Lemma evs_after_S n s :
  evs_after (S n) s =
  evs_after n s ++
  (if early_stop (after n s) then [] else snd (body n (after n s))).
Proof.
  unfold events_after, state_after. rewrite seq_S. simpl.
  destruct (loop_app (seq 0 n) [n] None None s) as [_ ->]. simpl.
  destruct (early_stop _); [reflexivity|].
  destruct (body n _); simpl. now rewrite app_nil_r.
Qed.

Lemma after_stopped n m s :
  (n <= m)%nat -> early_stop (after n s) = true ->
  after m s = after n s /\ evs_after m s = evs_after n s.
Proof.
  intros Hle Hstop. induction Hle as [|m Hle [IHs IHe]]; [auto|].
  rewrite after_S, evs_after_S, IHs, IHe, Hstop, app_nil_r. auto.
Qed.

Lemma loop_is_after n c s :
  exit_state (loop (seq 0 n) c s) = after n s /\
  loop_events (loop (seq 0 n) c s) = evs_after n s.
Proof. apply loop_cur_irrelevant. Qed.

End LoopFacts.

(** ** Invariants of a fold *)

Section InvariantFacts.

Context {W : World}.
Variables (run_name : string) (patience : Z) (use_wandb : bool).
Variables (fold : nat) (train_loader val_loader : Loader).

Local Abbreviation body :=
  (epoch_body run_name patience use_wandb fold train_loader val_loader).
Local Abbreviation after :=
  (state_after run_name patience use_wandb fold train_loader val_loader).
Local Abbreviation evs_after :=
  (events_after run_name patience use_wandb fold train_loader val_loader).
Local Abbreviation val := (epoch_val train_loader val_loader).
Local Abbreviation improves := (improves train_loader val_loader).

Lemma body_accs epoch s :
  accs (fst (body epoch s)) = accs s ++ [vm_acc (val epoch s)].
Proof. unfold accs. now rewrite body_history. Qed.

Lemma scan_snoc h v : scan (h ++ [v]) = scan_step (scan h) v.
Proof. unfold scan. now rewrite fold_left_app. Qed.

Lemma is_best_seen_snoc_improved h b v :
  is_best_seen h b -> (b < v)%Q -> is_best_seen (h ++ [v]) v.
Proof.
  intros (H0 & Hall & _) Hlt. split; [|split].
  - apply Qle_trans with b; [exact H0|now apply Qlt_le_weak].
  - apply Forall_app. split.
    + eapply Forall_impl; [|exact Hall]. intros u Hu.
      apply Qle_trans with b; [exact Hu|now apply Qlt_le_weak].
    + constructor; [apply Qle_refl|constructor].
  - right. apply in_or_app. right. now left.
Qed.

Lemma is_best_seen_snoc_kept h b v :
  is_best_seen h b -> (v <= b)%Q -> is_best_seen (h ++ [v]) b.
Proof.
  intros (H0 & Hall & Hin) Hle. split; [exact H0|split].
  - apply Forall_app. split; [exact Hall|]. constructor; [exact Hle|constructor].
  - destruct Hin as [->|Hin]; [now left|].
    right. apply in_or_app. now left.
Qed.

Lemma body_tracks epoch s :
  tracks_history s -> tracks_history (fst (body epoch s)).
Proof.
  intros (Hbest & Hscan & Hcnt & Hpos).
  unfold tracks_history, last_improvement in *.
  rewrite body_accs, body_best, body_counter, scan_snoc, length_app.
  destruct (scan (accs s)) as [[b n] last]. simpl in Hscan, Hcnt.
  injection Hscan as -> ->. unfold scan_step, improves.
  destruct (Qgt_bool_cases (vm_acc (val epoch s)) (best_val_acc s))
    as [[-> Hlt]|[-> Hle]]; simpl.
  - split; [now apply is_best_seen_snoc_improved with (best_val_acc s)|].
    split; [f_equal; lia|]. split; lia.
  - split; [now apply is_best_seen_snoc_kept|].
    split; [f_equal; lia|]. split; lia.
Qed.

Lemma after_tracks n s : tracks_history s -> tracks_history (after n s).
Proof.
  intros H. induction n as [|n IH]; [exact H|].
  rewrite after_S. destruct (early_stop _); [exact IH|].
  now apply body_tracks.
Qed.

Lemma body_stops epoch s :
  1 <= patience -> 0 <= epochs_no_improve s -> early_stop s = false ->
  stops_at_patience patience s ->
  stops_at_patience patience (fst (body epoch s)).
Proof.
  intros Hp Hpos Hflag [Hiff Hle]. unfold stops_at_patience.
  rewrite body_early_stop, body_counter, Hflag. unfold check_early_stop.
  assert (Hne : epochs_no_improve s <> patience).
  { intros Heq. apply Hiff in Heq. congruence. }
  destruct (improves epoch s).
  - destruct (Z.leb_spec patience 0); [lia|].
    split; [|lia]. split; [discriminate|lia].
  - destruct (Z.leb_spec patience (epochs_no_improve s + 1)).
    + split; [|lia]. split; [lia|reflexivity].
    + split; [|lia]. split; [discriminate|lia].
Qed.

Lemma after_stops n s :
  1 <= patience -> tracks_history s -> stops_at_patience patience s ->
  stops_at_patience patience (after n s).
Proof.
  intros Hp Ht Hs. induction n as [|n IH]; [exact Hs|].
  rewrite after_S. destruct (early_stop (after n s)) eqn:E; [exact IH|].
  apply body_stops; auto.
  now destruct (after_tracks n s Ht) as (_ & _ & _ & H).
Qed.

(** The history grows by one entry per budgeted epoch until the flag is up. *)
Lemma after_length n s :
  (length (accs (after n s)) <= length (accs s) + n)%nat /\
  (early_stop (after n s) = false ->
   length (accs (after n s)) = (length (accs s) + n)%nat).
Proof.
  induction n as [|n [IHle IHeq]].
  - rewrite after_0. split; [lia|intros _; lia].
  - rewrite after_S. destruct (early_stop (after n s)) eqn:E.
    + split; [lia|]. intros H. congruence.
    + rewrite body_accs, length_app. simpl. specialize (IHeq eq_refl).
      split; [lia|intros _; lia].
Qed.

End InvariantFacts.

(** ** Checkpoint calls among the events of an epoch *)

Section SaveFacts.

Context {W : World}.

Lemma saves_app k (a b : list Event) : saves k (a ++ b) = saves k a ++ saves k b.
Proof. apply filter_app. Qed.

Lemma saves_log_events k use_wandb l : saves k (log_events use_wandb l) = [].
Proof. destruct use_wandb; reflexivity. Qed.

Lemma saves_setup_events k use_wandb m : saves k (setup_events use_wandb m) = [].
Proof. destruct use_wandb; reflexivity. Qed.

Lemma saves_best_events run_name use_wandb fold m o epoch v :
  saves BestCk (best_events run_name use_wandb fold m o epoch v) =
  [SaveCheckpoint m o epoch v (best_path run_name fold)].
Proof. destruct use_wandb; reflexivity. Qed.

Lemma saves_final_of_best run_name use_wandb fold m o epoch v :
  saves FinalCk (best_events run_name use_wandb fold m o epoch v) = [].
Proof. destruct use_wandb; reflexivity. Qed.

Lemma saves_final_events run_name use_wandb fold m o epoch v :
  saves FinalCk (final_events run_name use_wandb fold m o epoch v) =
  [SaveCheckpoint m o epoch v (final_path run_name fold)].
Proof. destruct use_wandb; reflexivity. Qed.

Lemma saves_best_of_final run_name use_wandb fold m o epoch v :
  saves BestCk (final_events run_name use_wandb fold m o epoch v) = [].
Proof. destruct use_wandb; reflexivity. Qed.

End SaveFacts.

(** ** The claims about one fold *)

Section FoldClaims.

Context {W : World}.
Variables (run_name : string) (patience : Z) (use_wandb : bool).
Variables (fold : nat) (train_loader val_loader : Loader).
Variables (model_name : string) (lr : Q) (val_acc_in : option Q).

Local Abbreviation body :=
  (epoch_body run_name patience use_wandb fold train_loader val_loader).
Local Abbreviation after :=
  (state_after run_name patience use_wandb fold train_loader val_loader).
Local Abbreviation evs_after :=
  (events_after run_name patience use_wandb fold train_loader val_loader).
Local Abbreviation val := (epoch_val train_loader val_loader).
Local Abbreviation improved := (improves train_loader val_loader).
Local Abbreviation s0 := (fold_init model_name lr val_acc_in).

Lemma init_tracks : tracks_history s0.
Proof.
  unfold tracks_history, is_best_seen. simpl.
  repeat split; try lia; auto. apply Qle_refl.
Qed.

Lemma init_stops : 1 <= patience -> stops_at_patience patience s0.
Proof.
  intros H. unfold stops_at_patience. simpl.
  split; [|lia]. split; [discriminate|lia].
Qed.

Lemma improved_iff epoch s :
  improved epoch s = true <-> (best_val_acc s < vm_acc (val epoch s))%Q.
Proof. apply Qgt_bool_true. Qed.

Lemma not_improved_iff epoch s :
  improved epoch s = false <-> (vm_acc (val epoch s) <= best_val_acc s)%Q.
Proof. apply Qgt_bool_false. Qed.

(** C2: in every epoch that a fold runs, the no-improvement counter goes up
    by one exactly when the epoch's validation accuracy is at most the best
    seen so far in the fold (a tie included), and becomes 0 exactly when the
    accuracy is strictly greater than it. *)
Theorem counter_follows_accuracy (epoch : nat) :
  let s := after epoch s0 in
  let s' := after (S epoch) s0 in
  let v := vm_acc (val epoch s) in
  early_stop s = false ->
  is_best_seen (accs s) (best_val_acc s) /\
  accs s' = accs s ++ [v] /\
  (epochs_no_improve s' = epochs_no_improve s + 1 <->
   (v <= best_val_acc s)%Q) /\
  (epochs_no_improve s' = 0 <-> (best_val_acc s < v)%Q).
Proof.
  intros s s' v Hrun.
  destruct (after_tracks run_name patience use_wandb fold train_loader
              val_loader epoch s0 init_tracks) as (Hbest & _ & _ & Hpos).
  fold s in Hbest, Hpos.
  assert (Hs' : s' = fst (body epoch s)).
  { unfold s'. rewrite after_S. fold s. now rewrite Hrun. }
  split; [exact Hbest|]. rewrite Hs', body_accs, body_counter.
  split; [reflexivity|]. unfold v.
  rewrite <- improved_iff, <- not_improved_iff.
  destruct (improved epoch s); split; split; intros H;
    try reflexivity; try discriminate; lia.
Qed.

(** C4: in every epoch that a fold runs, a "best" checkpoint is written if
    and only if the epoch's validation accuracy strictly exceeds the best
    seen before in the fold; the call saves the model and the optimizer as
    they are after that epoch, the epoch's index and its accuracy. *)
Theorem best_checkpoint_iff_improved (epoch : nat) :
  let s := after epoch s0 in
  let s' := after (S epoch) s0 in
  let v := vm_acc (val epoch s) in
  early_stop s = false ->
  exists evs,
    evs_after (S epoch) s0 = evs_after epoch s0 ++ evs /\
    is_best_seen (accs s) (best_val_acc s) /\
    (saves BestCk evs <> [] <-> (best_val_acc s < v)%Q) /\
    ((best_val_acc s < v)%Q ->
     saves BestCk evs =
     [SaveCheckpoint (fs_model s') (fs_optimizer s') epoch v
                     (best_path run_name fold)]).
Proof.
  intros s s' v Hrun. exists (snd (body epoch s)).
  destruct (after_tracks run_name patience use_wandb fold train_loader
              val_loader epoch s0 init_tracks) as (Hbest & _).
  fold s in Hbest.
  assert (Hs' : s' = fst (body epoch s)).
  { unfold s'. rewrite after_S. fold s. now rewrite Hrun. }
  split; [rewrite evs_after_S; fold s; now rewrite Hrun|].
  split; [exact Hbest|].
  unfold v.
  rewrite body_events, saves_app, saves_log_events, <- improved_iff, Hs'.
  destruct (improved epoch s).
  - rewrite saves_best_events. split; [|auto].
    split; [reflexivity|discriminate].
  - simpl. split; [|discriminate]. split; [congruence|discriminate].
Qed.

(** C10: the best accuracy of a fold starts at 0.0, so the first epoch is an
    improvement exactly when its accuracy is strictly positive; when every
    epoch of the fold validates at accuracy 0, no "best" checkpoint is ever
    written and the counter equals the number of epochs run, from the first
    epoch on. *)
Theorem zero_accuracy_never_improves :
  best_val_acc s0 = (0 # 1)%Q /\
  (epochs_no_improve (after 1 s0) = 0 <-> (0 < vm_acc (val 0 s0))%Q) /\
  (saves BestCk (evs_after 1 s0) <> [] <-> (0 < vm_acc (val 0 s0))%Q) /\
  ((forall epoch, (vm_acc (val epoch (after epoch s0)) == 0)%Q) ->
   forall n,
     saves BestCk (evs_after n s0) = [] /\
     epochs_no_improve (after n s0) = Z.of_nat (length (accs (after n s0))) /\
     (early_stop (after n s0) = false ->
      epochs_no_improve (after n s0) = Z.of_nat n)).
Proof.
  split; [reflexivity|].
  assert (H1 : after 1 s0 = fst (body 0 s0)) by (now rewrite after_S).
  assert (E1 : evs_after 1 s0 = snd (body 0 s0)) by (now rewrite evs_after_S).
  assert (Hiff : improved 0 s0 = true <-> (0 < vm_acc (val 0 s0))%Q)
    by apply (improved_iff 0 s0).
  split; [|split].
  - rewrite H1, body_counter, <- Hiff. simpl epochs_no_improve.
    destruct (improved 0 s0); split; intros H;
      try reflexivity; try discriminate; lia.
  - rewrite E1, body_events, saves_app, saves_log_events, <- Hiff.
    destruct (improved 0 s0).
    + rewrite saves_best_events. split; [reflexivity|discriminate].
    + simpl. split; [congruence|discriminate].
  - intros Hzero n.
    assert (Hinv : saves BestCk (evs_after n s0) = [] /\
                   best_val_acc (after n s0) = (0 # 1)%Q /\
                   epochs_no_improve (after n s0) =
                     Z.of_nat (length (accs (after n s0)))).
    { induction n as [|n (IHe & IHb & IHc)]; [auto|].
      rewrite after_S, evs_after_S.
      destruct (early_stop (after n s0)) eqn:E.
      - rewrite app_nil_r. auto.
      - assert (Hno : improved n (after n s0) = false).
        { apply not_improved_iff. rewrite IHb.
          apply Qle_lteq. right. apply Hzero. }
        rewrite body_events, body_best, body_counter, body_accs, Hno.
        rewrite app_nil_r, saves_app, saves_log_events, IHe, length_app.
        simpl. split; [reflexivity|]. split; [exact IHb|lia]. }
    destruct Hinv as (He & _ & Hc). split; [exact He|]. split; [exact Hc|].
    intros Hrun. rewrite Hc.
    destruct (after_length run_name patience use_wandb fold train_loader
                val_loader n s0) as [_ Hlen].
    rewrite (Hlen Hrun). reflexivity.
Qed.

Variables (epochs : Z) (epoch_in : option nat).

Lemma exit_is_after :
  exit_state (fold_exit_state run_name patience use_wandb fold train_loader
                val_loader model_name lr epochs epoch_in val_acc_in) =
    after (Z.to_nat epochs) s0 /\
  loop_events (fold_exit_state run_name patience use_wandb fold train_loader
                 val_loader model_name lr epochs epoch_in val_acc_in) =
    evs_after (Z.to_nat epochs) s0.
Proof. unfold fold_exit_state, range. apply loop_is_after. Qed.

(** C1, for a patience of at least 1: the early-stop flag is up exactly when
    the no-improvement counter has reached the patience; once it is up no
    further epoch runs, whatever the budget; and the fold's history then has
    (epoch of the last improvement + patience) entries, within the budget. *)
Theorem early_stop_at_patience :
  let r := fold_exit_state run_name patience use_wandb fold train_loader
             val_loader model_name lr epochs epoch_in val_acc_in in
  1 <= patience ->
  (forall n, early_stop (after n s0) = true <->
             epochs_no_improve (after n s0) = patience) /\
  (forall n m, (n <= m)%nat -> early_stop (after n s0) = true ->
               after m s0 = after n s0 /\ evs_after m s0 = evs_after n s0) /\
  exit_state r = after (Z.to_nat epochs) s0 /\
  (early_stop (exit_state r) = true ->
   Z.of_nat (length (accs (exit_state r))) =
     Z.of_nat (last_improvement (accs (exit_state r))) + patience /\
   Z.of_nat (length (accs (exit_state r))) <= epochs).
Proof.
  intros r Hp.
  split; [|split; [|split]].
  - intros n.
    now destruct (after_stops run_name patience use_wandb fold train_loader
                    val_loader n s0 Hp init_tracks (init_stops Hp)).
  - intros n m. apply after_stopped.
  - apply exit_is_after.
  - unfold r. destruct exit_is_after as [-> _]. intros Hstop.
    set (n := Z.to_nat epochs) in *.
    destruct (after_stops run_name patience use_wandb fold train_loader
                val_loader n s0 Hp init_tracks (init_stops Hp)) as [Hiff _].
    destruct (after_tracks run_name patience use_wandb fold train_loader
                val_loader n s0 init_tracks) as (_ & _ & Hcnt & _).
    destruct (after_length run_name patience use_wandb fold train_loader
                val_loader n s0) as [Hlen _].
    apply Hiff in Hstop. split; [lia|].
    simpl in Hlen. destruct (Z.le_gt_cases epochs 0) as [Hneg|Hposi].
    + exfalso. assert (Hn : n = 0%nat) by (unfold n; lia).
      rewrite Hn, after_0 in Hstop. simpl in Hstop. lia.
    + unfold n in *. lia.
Qed.

End FoldClaims.

(** ** What the loop leaves in the locals *)

Section ExitFacts.

Context {W : World}.
Variables (run_name : string) (patience : Z) (use_wandb : bool).
Variables (fold : nat) (train_loader val_loader : Loader).

Local Abbreviation body :=
  (epoch_body run_name patience use_wandb fold train_loader val_loader).
Local Abbreviation loop :=
  (epoch_loop run_name patience use_wandb fold train_loader val_loader).
Local Abbreviation ran :=
  (executed run_name patience use_wandb fold train_loader val_loader).
Local Abbreviation val := (epoch_val train_loader val_loader).

Lemma executed_le es s : (ran es s <= length es)%nat.
Proof.
  revert s. induction es as [|e es IH]; intros s; simpl; [lia|].
  destruct (early_stop s); [lia|]. specialize (IH (fst (body e s))). lia.
Qed.

Lemma loop_length es c s :
  length (accs (exit_state (loop es c s))) = (length (accs s) + ran es s)%nat.
Proof.
  revert c s. induction es as [|e es IH]; intros c s; simpl; [lia|].
  destruct (early_stop s); simpl; [lia|].
  destruct (body e s) as [s' evs] eqn:E. simpl.
  rewrite IH. replace s' with (fst (body e s)) by now rewrite E.
  rewrite body_accs, length_app. simpl. lia.
Qed.

(** The loop variable after the loop: the index at which [break] was taken,
    or the last index of the range. *)
Lemma loop_epoch_var n a c s :
  epoch_var (loop (seq a n) c s) =
  match n with
  | O => c
  | S n' => Some (if (ran (seq a n) s <? n)%nat
                  then (a + ran (seq a n) s)%nat else (a + n')%nat)
  end.
Proof.
  revert a c s. induction n as [|n IH]; intros a c s; [reflexivity|].
  cbn [seq epoch_loop executed].
  destruct (early_stop s); cbn [epoch_var]; [simpl; f_equal; lia|].
  destruct (body a s) as [s' evs]. cbn [fst epoch_var]. rewrite IH.
  pose proof (executed_le (seq (S a) n) s') as Hle.
  rewrite length_seq in Hle.
  set (k := ran (seq (S a) n) s') in *.
  destruct n as [|n'].
  - destruct (Nat.ltb_spec (S k) 1); f_equal; lia.
  - destruct (Nat.ltb_spec k (S n')); destruct (Nat.ltb_spec (S k) (S (S n')));
      f_equal; lia.
Qed.

Lemma body_holds_last e s : holds_last (fst (body e s)).
Proof.
  exists (accs s), (vm_acc (val e s)).
  now rewrite body_accs, body_val_acc_var.
Qed.

Lemma loop_keeps_last es c s :
  holds_last s -> holds_last (exit_state (loop es c s)).
Proof.
  revert c s. induction es as [|e es IH]; intros c s H; simpl; [exact H|].
  destruct (early_stop s); simpl; [exact H|].
  destruct (body e s) as [s' evs] eqn:E. simpl. apply IH.
  replace s' with (fst (body e s)) by now rewrite E. apply body_holds_last.
Qed.

Lemma loop_holds_last es c s :
  ran es s <> 0%nat -> holds_last (exit_state (loop es c s)).
Proof.
  destruct es as [|e es]; simpl; [congruence|].
  destruct (early_stop s); [congruence|]. intros _.
  destruct (body e s) as [s' evs] eqn:E. simpl. apply loop_keeps_last.
  replace s' with (fst (body e s)) by now rewrite E. apply body_holds_last.
Qed.

(** The loop itself writes no "final" checkpoint. *)
Lemma loop_no_final es c s : saves FinalCk (loop_events (loop es c s)) = [].
Proof.
  revert c s. induction es as [|e es IH]; intros c s; simpl; [reflexivity|].
  destruct (early_stop s); simpl; [reflexivity|].
  destruct (body e s) as [s' evs] eqn:E. simpl.
  rewrite saves_app, IH, app_nil_r.
  replace evs with (snd (body e s)) by now rewrite E.
  rewrite body_events, saves_app, saves_log_events.
  destruct (improves _ _ _ _); [apply saves_final_of_best|reflexivity].
Qed.

End ExitFacts.

(** ** One fold, from set-up to the "final" checkpoint *)

Section RunFoldFacts.

Context {W : World}.
Variables (run_name : string) (patience : Z) (use_wandb : bool).
Variables (fold : nat) (train_loader val_loader : Loader).
Variables (model_name : string) (lr : Q) (epochs : Z).
Variables (epoch_in : option nat) (val_acc_in : option Q).

Local Abbreviation s0 := (fold_init model_name lr val_acc_in).
Local Abbreviation exit :=
  (fold_exit_state run_name patience use_wandb fold train_loader val_loader
                   model_name lr epochs epoch_in val_acc_in).
Local Abbreviation the_fold :=
  (run_fold run_name patience use_wandb fold train_loader val_loader
            model_name lr epochs epoch_in val_acc_in).

(** With no epoch to run and [epoch] still unbound, the fold raises at the
    "final" checkpoint, having called nothing but the set-up. *)
Lemma run_fold_faults :
  epochs <= 0 -> epoch_in = None ->
  the_fold = (setup_events use_wandb (fs_model s0),
              Raise (UnboundLocalError "epoch")).
Proof.
  intros He Hin. unfold run_fold, fold_exit_state, range.
  replace (Z.to_nat epochs) with 0%nat by lia. subst epoch_in. simpl.
  now rewrite app_nil_r.
Qed.

(** The index that the "final" checkpoint of a fold records, given the
    number [k] of epochs that ran: the index at which the loop was left. *)
Lemma run_fold_returns :
  1 <= epochs ->
  let s := exit_state exit in
  let k := length (accs s) in
  let epoch := if (k <? Z.to_nat epochs)%nat then k
               else (Z.to_nat epochs - 1)%nat in
  exists h v,
    accs s = h ++ [v] /\
    the_fold =
      ((setup_events use_wandb (fs_model s0) ++ loop_events exit) ++
       final_events run_name use_wandb fold (fs_model s) (fs_optimizer s)
                    epoch v,
       Ok (mkFoldExit
             (mkFoldResult (fold + 1) (best_val_acc s) (history s))
             (np_mean (val_f1s (history s)))
             (np_mean (val_recalls (history s)))
             (np_mean (val_precisions (history s)))
             (Some epoch) (Some v))).
Proof.
  intros He s k epoch.
  assert (Hn : exists n, Z.to_nat epochs = S n).
  { exists (Z.to_nat epochs - 1)%nat. lia. }
  destruct Hn as [n Hn].
  assert (Hk : k = executed run_name patience use_wandb fold train_loader
                     val_loader (range epochs) s0).
  { unfold k, s, fold_exit_state. now rewrite loop_length. }
  assert (Hran : k <> 0%nat).
  { rewrite Hk. unfold range. rewrite Hn. simpl. discriminate. }
  destruct (loop_holds_last run_name patience use_wandb fold train_loader
              val_loader (range epochs) epoch_in s0) as (h & v & Hh & Hv).
  { now rewrite <- Hk. }
  exists h, v. split; [exact Hh|].
  unfold run_fold. fold s.
  assert (Hvar : epoch_var exit = Some epoch).
  { unfold fold_exit_state, range. rewrite loop_epoch_var, Hn.
    unfold epoch. rewrite Hk. unfold range. rewrite Hn. simpl.
    now rewrite Nat.sub_0_r. }
  rewrite Hvar. unfold s, fold_exit_state. rewrite Hv. reflexivity.
Qed.

(** A fold writes exactly one "final" checkpoint when it has a budget. *)
Lemma one_final_checkpoint :
  1 <= epochs ->
  exists m o epoch v,
    saves FinalCk (fst the_fold) =
    [SaveCheckpoint m o epoch v (final_path run_name fold)].
Proof.
  intros He. destruct (run_fold_returns He) as (h & v & _ & ->).
  do 4 eexists. simpl fst.
  rewrite !saves_app, saves_setup_events, saves_final_events.
  unfold fold_exit_state. rewrite loop_no_final. reflexivity.
Qed.

End RunFoldFacts.

(** ** The run: all folds, then the averages *)

Section RunFacts.

Context {W : World}.
Variables (model_name : string) (batch_size : Z) (lr : Q).
Variables (epochs patience : Z) (use_wandb : bool).

Local Abbreviation folds :=
  (fold_loop model_name lr epochs patience use_wandb).
Local Abbreviation the_run :=
  (train model_name batch_size lr epochs patience use_wandb).




Lemma fold_loop_returns fs r :
  1 <= epochs -> exists evs r', folds fs r = (evs, Ok r').
Proof.
  intros He. revert r.
  induction fs as [|[fold [tl vl]] fs IH]; intros r; simpl.
  - now exists [], r.
  - destruct (run_fold_returns (run_name model_name) patience use_wandb fold
                tl vl
                model_name lr epochs (run_epoch r) (run_val_acc r) He)
      as (h & v & _ & ->).
    match goal with
    | |- context [folds fs ?a] => destruct (IH a) as (evs & r' & ->)
    end.
    eauto.
Qed.

(** A run with a budget of at least one epoch returns, every collaborator
    returning. *)
Lemma train_returns : 1 <= epochs -> exists evs t, the_run = (evs, Ok t).
Proof.
  intros He. unfold train.
  destruct (fold_loop_returns (enumerate (get_kfold_data_loaders batch_size))
              run_init He) as (evs & r & ->).
  eauto.
Qed.



End RunFacts.

(** ** The two telemetry backends *)

Section TelemetryFacts.

Context {W : World}.

Lemma remote_app (a b : list Event) :
  remote_metrics (a ++ b) = remote_metrics a ++ remote_metrics b.
Proof. apply flat_map_app. Qed.

Lemma local_app (a b : list Event) :
  local_metrics (a ++ b) = local_metrics a ++ local_metrics b.
Proof. apply flat_map_app. Qed.

Variables (run_name : string) (patience : Z).
Variables (fold : nat) (train_loader val_loader : Loader).

Local Abbreviation body :=
  (epoch_body run_name patience).
Local Abbreviation loop := (epoch_loop run_name patience).
Local Abbreviation log := (epoch_log fold train_loader val_loader).

Lemma body_flag epoch s :
  fst (body true fold train_loader val_loader epoch s) =
  fst (body false fold train_loader val_loader epoch s).
Proof.
  unfold epoch_body.
  destruct (epoch_run _ _ _ _) as [[[[m o] sc] [tl ta]] v]. simpl.
  destruct (Qgt_bool _ _); reflexivity.
Qed.

Lemma body_telemetry epoch s :
  remote_metrics (snd (body true fold train_loader val_loader epoch s)) =
    [EpochMetrics (log epoch s)] /\
  local_metrics (snd (body false fold train_loader val_loader epoch s)) =
    [EpochMetrics (log epoch s)] /\
  local_metrics (snd (body true fold train_loader val_loader epoch s)) = [] /\
  remote_metrics (snd (body false fold train_loader val_loader epoch s)) = [].
Proof.
  rewrite !body_events. destruct (improves _ _ _ _); repeat split; reflexivity.
Qed.

Lemma loop_telemetry es c s :
  let rt := loop true fold train_loader val_loader es c s in
  let rf := loop false fold train_loader val_loader es c s in
  epoch_var rt = epoch_var rf /\ exit_state rt = exit_state rf /\
  remote_metrics (loop_events rt) = local_metrics (loop_events rf) /\
  local_metrics (loop_events rt) = [] /\
  remote_metrics (loop_events rf) = [] /\
  accs (exit_state rf) =
    accs s ++ flat_map metric_acc (local_metrics (loop_events rf)).
Proof.
  revert c s. induction es as [|e es IH]; intros c s; simpl.
  - rewrite app_nil_r. repeat split; reflexivity.
  - destruct (early_stop s); simpl;
      [rewrite app_nil_r; repeat split; reflexivity|].
    pose proof (body_flag e s) as Hst.
    destruct (body_telemetry e s) as (Hr & Hl & Hl0 & Hr0).
    pose proof (body_accs run_name patience false fold train_loader val_loader
                  e s) as Hacc.
    destruct (body true fold train_loader val_loader e s) as [st evt].
    destruct (body false fold train_loader val_loader e s) as [sf evf].
    simpl in *. subst st.
    destruct (IH (Some e) sf) as (H1 & H2 & H3 & H4 & H5 & H6). simpl.
    rewrite !remote_app, !local_app, Hr, Hl, Hl0, Hr0, H3, H4, H5.
    repeat split; auto.
    rewrite H6, Hacc. simpl. now rewrite log_val_acc, <- app_assoc.
Qed.

Variables (model_name : string) (lr : Q) (epochs : Z).

Lemma run_fold_telemetry epoch_in val_acc_in :
  let ft := run_fold run_name patience true fold train_loader val_loader
              model_name lr epochs epoch_in val_acc_in in
  let ff := run_fold run_name patience false fold train_loader val_loader
              model_name lr epochs epoch_in val_acc_in in
  snd ft = snd ff /\
  remote_metrics (fst ft) = local_metrics (fst ff) /\
  local_metrics (fst ft) = [] /\
  remote_metrics (fst ff) = [] /\
  (forall x, snd ff = Ok x ->
     val_accs (fr_history (fe_result x)) =
     flat_map metric_acc (local_metrics (fst ff))).
Proof.
  unfold run_fold, fold_exit_state. cbv zeta.
  destruct (loop_telemetry (range epochs) epoch_in
              (fold_init model_name lr val_acc_in))
    as (H1 & H2 & H3 & H4 & H5 & H6).
  rewrite H1, H2. clear H1 H2.
  assert (Hfin : forall uw m o e v,
            remote_metrics (final_events run_name uw fold m o e v) = [] /\
            local_metrics (final_events run_name uw fold m o e v) = []).
  { intros [|] m o e v; split; reflexivity. }
  destruct (epoch_var _) as [e|]; cbn [fst snd].
  - destruct (val_acc_var _) as [v|]; cbn [fst snd].
    + rewrite !remote_app, !local_app, H3, H4, H5.
      destruct (Hfin true (fs_model (exit_state (loop false fold train_loader
                   val_loader (range epochs) epoch_in
                   (fold_init model_name lr val_acc_in))))
                  (fs_optimizer (exit_state (loop false fold train_loader
                   val_loader (range epochs) epoch_in
                   (fold_init model_name lr val_acc_in)))) e v) as [-> ->].
      destruct (Hfin false (fs_model (exit_state (loop false fold train_loader
                   val_loader (range epochs) epoch_in
                   (fold_init model_name lr val_acc_in))))
                  (fs_optimizer (exit_state (loop false fold train_loader
                   val_loader (range epochs) epoch_in
                   (fold_init model_name lr val_acc_in)))) e v) as [-> ->].
      simpl. rewrite !app_nil_r. repeat split; auto.
      intros x Hx. injection Hx as <-. simpl. exact H6.
    + rewrite !remote_app, !local_app, H3, H4, H5. simpl.
      repeat split; auto. discriminate.
  - rewrite !remote_app, !local_app, H3, H4, H5. simpl.
    repeat split; auto. discriminate.
Qed.

End TelemetryFacts.

Section RunTelemetry.

Context {W : World}.
Variables (model_name : string) (batch_size : Z) (lr : Q).
Variables (epochs patience : Z).

Local Abbreviation folds := (fold_loop model_name lr epochs patience).
Local Abbreviation the_run :=
  (train model_name batch_size lr epochs patience).
Local Abbreviation accs_of := (fun x : FoldResult => val_accs (fr_history x)).

Lemma fold_loop_telemetry fs r :
  snd (folds true fs r) = snd (folds false fs r) /\
  remote_metrics (fst (folds true fs r)) =
    local_metrics (fst (folds false fs r)) /\
  local_metrics (fst (folds true fs r)) = [] /\
  remote_metrics (fst (folds false fs r)) = [] /\
  (forall r', snd (folds false fs r) = Ok r' ->
     concat (map accs_of (fold_results r')) =
     concat (map accs_of (fold_results r)) ++
     flat_map metric_acc (local_metrics (fst (folds false fs r)))).
Proof.
  revert r. induction fs as [|[fold [tl vl]] fs IH]; intros r.
  - simpl. repeat split; auto. intros r' H. injection H as <-.
    now rewrite app_nil_r.
  - cbn [fold_loop].
    destruct (run_fold_telemetry (run_name model_name) patience fold tl vl
                model_name lr epochs (run_epoch r) (run_val_acc r))
      as (H1 & H2 & H3 & H4 & H5).
    destruct (run_fold _ _ true _ _ _ _ _ _ _ _) as [e1 [x1|ex1]];
      destruct (run_fold _ _ false _ _ _ _ _ _ _ _) as [e2 [x2|ex2]];
      cbn [fst snd] in *; try discriminate.
    + injection H1 as ->.
      destruct (IH (run_append r x2)) as (I1 & I2 & I3 & I4 & I5).
      destruct (folds true fs _) as [e1' res1].
      destruct (folds false fs _) as [e2' res2].
      cbn [fst snd] in *.
      rewrite !remote_app, !local_app, H2, H3, H4, I2, I3, I4.
      repeat split; auto. intros r' Hr'.
      rewrite (I5 r' Hr'). cbn [run_append fold_results].
      rewrite map_app, concat_app, flat_map_app. cbn [map concat].
      specialize (H5 x2 eq_refl). rewrite H5, app_nil_r.
      now rewrite app_assoc.
    + repeat split; auto; congruence.
Qed.

(** C7, as the code has it: whichever backend is selected, the run returns
    the same result and the active backend receives the same per-epoch
    messages, one per executed epoch and in the same order, while the other
    backend receives nothing; the run summary goes to the tracking service
    only, once, after the last epoch of a run that returns. *)
Theorem backends_receive_epoch_metrics :
  snd (the_run true) = snd (the_run false) /\
  remote_metrics (fst (the_run true)) =
    local_metrics (fst (the_run false)) ++
    match snd (the_run true) with
    | Ok t => [RunSummary (summary_of t)]
    | Raise _ => []
    end /\
  local_metrics (fst (the_run true)) = [] /\
  remote_metrics (fst (the_run false)) = [] /\
  (forall t, snd (the_run false) = Ok t ->
     flat_map metric_acc (local_metrics (fst (the_run false))) =
     concat (map accs_of (tr_fold_results t))).
Proof.
  unfold train.
  destruct (fold_loop_telemetry
              (enumerate (get_kfold_data_loaders batch_size)) run_init)
    as (H1 & H2 & H3 & H4 & H5).
  destruct (folds true _ run_init) as [e1 [r1|ex1]];
    destruct (folds false _ run_init) as [e2 [r2|ex2]];
    cbn [fst snd] in *; try discriminate.
  - injection H1 as ->. unfold init_events, finish_events.
    rewrite !remote_app, !local_app, H2, H3, H4. simpl.
    rewrite !app_nil_r. repeat split; auto.
    intros t Ht. injection Ht as <-. simpl.
    specialize (H5 r2 eq_refl). now rewrite H5.
  - unfold init_events. rewrite !remote_app, !local_app, H2, H3, H4. simpl.
    rewrite !app_nil_r. repeat split; auto; congruence.
Qed.

End RunTelemetry.

(** ** The scenarios *)

(** C3 (the code departs from it): in the scenario of the specification the
    fold is left by [break] at index 4 after the four epochs 0..3 have run;
    the one "final" checkpoint carries the accuracy of epoch 3, the last one
    evaluated, but the epoch index 4 at which no epoch ran. *)
Lemma final_checkpoint_after_break :
  let run := train (W := Script.spec_scenario) "vit" 32 (1 # 100000) 5 2
                   false in
  saves FinalCk (fst run) =
    [SaveCheckpoint (W := Script.spec_scenario) (0%nat, 4%nat) (1 # 100000)%Q
       4 (71 # 1)%Q (mkPath "vit_20240101-0000" 1 FinalCk)] /\
  exists t, snd run = Ok t /\
            map (fun x => val_accs (fr_history x)) (tr_fold_results t) =
            [[70 # 1; 72 # 1; 72 # 1; 71 # 1]%Q].
Proof.
  split; [reflexivity|]. eexists. split; reflexivity.
Qed.

(** Without the early stop the index is that of the last epoch. *)
Lemma final_checkpoint_after_budget :
  saves FinalCk
    (fst (train (W := Script.spec_scenario) "vit" 32 (1 # 100000) 3 2 false)) =
  [SaveCheckpoint (W := Script.spec_scenario) (0%nat, 3%nat) (1 # 100000)%Q
     2 (72 # 1)%Q (mkPath "vit_20240101-0000" 1 FinalCk)].
Proof. reflexivity. Qed.

Lemma counter_follows_accuracy_witness :
  let s0 := fold_init (W := Script.spec_scenario) "vit" (1 # 100000) None in
  let s := state_after (W := Script.spec_scenario) "run" 2 false 0 0%nat 0%nat 2 s0 in
  let s' := state_after (W := Script.spec_scenario) "run" 2 false 0 0%nat 0%nat 3 s0 in
  early_stop s = false /\
  epochs_no_improve s' = epochs_no_improve s + 1.
Proof.
  intros s0 s s'. split; [reflexivity|].
  destruct (counter_follows_accuracy (W := Script.spec_scenario) "run" 2 false
              0 0%nat 0%nat "vit" (1 # 100000)%Q None 2 eq_refl)
    as (_ & _ & [_ Hinc] & _).
  apply Hinc. vm_compute. discriminate.
Defined.

Lemma best_checkpoint_iff_improved_witness :
  let s0 := fold_init (W := Script.spec_scenario) "vit" (1 # 100000) None in
  early_stop (state_after (W := Script.spec_scenario) "run" 2 false 0 0%nat 0%nat 1 s0) = false /\
  exists evs,
    events_after (W := Script.spec_scenario) "run" 2 false 0 0%nat 0%nat 2 s0 =
    events_after (W := Script.spec_scenario) "run" 2 false 0 0%nat 0%nat 1 s0 ++ evs /\
    saves BestCk evs =
    [SaveCheckpoint (W := Script.spec_scenario) (0%nat, 2%nat) (1 # 100000)%Q
       1 (72 # 1)%Q (mkPath "run" 1 BestCk)].
Proof.
  intros s0. split; [reflexivity|].
  destruct (best_checkpoint_iff_improved (W := Script.spec_scenario) "run" 2
              false 0 0%nat 0%nat "vit" (1 # 100000)%Q None 1 eq_refl)
    as (evs & He & _ & _ & Hsave).
  exists evs. split; [exact He|]. apply Hsave. vm_compute. reflexivity.
Defined.

Lemma zero_scenario_acc m loader :
  (vm_acc (validate (World := Script.zero_scenario) m loader) == 0)%Q.
Proof.
  destruct m as [f k]. simpl. unfold Script.acc_at. simpl.
  destruct loader as [|[|loader]]; simpl;
    destruct (k - 1)%nat as [|[|[|[|j]]]]; reflexivity.
Qed.

Lemma zero_accuracy_never_improves_witness :
  let s0 := fold_init (W := Script.zero_scenario) "vit" (1 # 100000) None in
  saves BestCk (events_after (W := Script.zero_scenario) "run" 5 false 0 0%nat 0%nat 3 s0) = [] /\
  epochs_no_improve (state_after (W := Script.zero_scenario) "run" 5 false 0 0%nat 0%nat 3 s0) = 3.
Proof.
  intros s0.
  destruct (zero_accuracy_never_improves (W := Script.zero_scenario) "run" 5
              false 0 0%nat 0%nat "vit" (1 # 100000)%Q None)
    as (_ & _ & _ & H).
  destruct (H (fun epoch => zero_scenario_acc _ _) 3%nat) as (Hs & _ & Hc).
  split; [exact Hs|]. apply Hc. reflexivity.
Defined.

Lemma early_stop_at_patience_witness :
  let r := fold_exit_state (W := Script.spec_scenario) "run" 2 false 0 0%nat
             0%nat "vit" (1 # 100000) 5 None None in
  early_stop (exit_state r) = true /\
  length (accs (exit_state r)) = 4%nat /\
  Z.of_nat (length (accs (exit_state r))) =
    Z.of_nat (last_improvement (accs (exit_state r))) + 2.
Proof.
  intros r. split; [reflexivity|]. split; [reflexivity|].
  destruct (early_stop_at_patience (W := Script.spec_scenario) "run" 2 false
              0 0%nat 0%nat "vit" (1 # 100000)%Q None 5 None ltac:(lia))
    as (_ & _ & _ & H).
  apply H. reflexivity.
Defined.

(** C1 as stated fails without a positive patience: with patience 0 and a
    first accuracy of 0.0 the fold stops after one epoch although no epoch
    improved; with patience -1 it stops after its first, improving, epoch. *)
Lemma early_stop_needs_positive_patience :
  (let r := fold_exit_state (W := Script.zero_scenario) "run" 0 false 0 0%nat
              0%nat "vit" (1 # 100000) 3 None None in
   early_stop (exit_state r) = true /\
   Z.of_nat (length (accs (exit_state r))) <>
     Z.of_nat (last_improvement (accs (exit_state r))) + 0) /\
  (let r := fold_exit_state (W := Script.spec_scenario) "run" (-1) false 0
              0%nat 0%nat "vit" (1 # 100000) 5 None None in
   early_stop (exit_state r) = true /\
   Z.of_nat (length (accs (exit_state r))) <>
     Z.of_nat (last_improvement (accs (exit_state r))) + -1).
Proof.
  split; (split; [reflexivity|vm_compute; discriminate]).
Qed.



(** C7 as stated fails: the tracking service receives the run summary, the
    local log writer does not. *)
Lemma backends_differ_on_summary :
  let remote_run := train (W := Script.spec_scenario) "vit" 32 (1 # 100000)
                          5 2 true in
  let local_run := train (W := Script.spec_scenario) "vit" 32 (1 # 100000)
                         5 2 false in
  local_metrics (fst local_run) <> remote_metrics (fst remote_run) /\
  (exists s, remote_metrics (fst remote_run) =
             local_metrics (fst local_run) ++ [RunSummary s]) /\
  Forall (fun m => match m with
                   | EpochMetrics _ => True
                   | RunSummary _ => False
                   end) (local_metrics (fst local_run)).
Proof.
  split; [|split].
  - intros H. apply (f_equal (@length _)) in H. vm_compute in H.
    discriminate.
  - eexists. vm_compute. reflexivity.
  - vm_compute. repeat constructor.
Qed.

(** ** The plateau scheduler and the cross-model test, as far as [train] and
    [main] decide them *)

Section SchedulerFacts.

Context {W : World}.
Variables (run_name : string) (patience : Z) (use_wandb : bool).
Variables (fold : nat) (train_loader val_loader : Loader).

(** The scheduler of a fold is built with factor 0.5 and patience 3,
    whatever the early-stopping patience. *)
Lemma scheduler_configuration model_name lr val_acc_in :
  fs_scheduler (fold_init model_name lr val_acc_in) =
  ReduceLROnPlateau (Adam (get_model model_name num_classes) lr) (1 # 2)%Q 3.
Proof. reflexivity. Qed.

(** In every epoch the scheduler is stepped once, with the validation loss
    of that epoch, and the learning rate logged for the epoch is the one the
    optimizer has after that step. *)
Lemma scheduler_fed_val_loss epoch s :
  let '(m, o, _) :=
    train_one_epoch (fs_model s) train_loader (fs_optimizer s) epoch in
  let v := validate m val_loader in
  let s' := fst (epoch_body run_name patience use_wandb fold train_loader
                            val_loader epoch s) in
  (fs_scheduler s', fs_optimizer s') =
    scheduler_step (fs_scheduler s) o (vm_loss v) /\
  lg_lr (epoch_log fold train_loader val_loader epoch s) =
    current_lr (fs_optimizer s').
Proof.
  unfold epoch_body, epoch_log, epoch_run.
  destruct (train_one_epoch _ _ _ _) as [[m o] [tl ta]].
  destruct (scheduler_step _ _ _) as [sc o']. simpl.
  destruct (Qgt_bool _ _); split; reflexivity.
Qed.

End SchedulerFacts.

Section AllFacts.

Context {W : World}.
Variables (batch_size : Z) (lr : Q) (epochs patience : Z) (no_wandb : bool).

Lemma dict_get_set_same {V : Type} (d : dict V) k v :
  dict_get (dict_set d k v) k = Some v.
Proof.
  induction d as [|[k' v'] d IH]; simpl.
  - now rewrite String.eqb_refl.
  - destruct (String.eqb k' k) eqn:E; simpl; rewrite E; auto.
Qed.

Lemma dict_get_set_other {V : Type} (d : dict V) k k' v :
  k <> k' -> dict_get (dict_set d k v) k' = dict_get d k'.
Proof.
  intros Hne. induction d as [|[k0 v0] d IH]; simpl.
  - destruct (String.eqb k k') eqn:E; [|reflexivity].
    apply String.eqb_eq in E. contradiction.
  - destruct (String.eqb k0 k) eqn:E; simpl.
    + apply String.eqb_eq in E. subst k0.
      destruct (String.eqb k k') eqn:E2; [|reflexivity].
      apply String.eqb_eq in E2. contradiction.
    + destruct (String.eqb k0 k'); auto.
Qed.

(** After the loop over the architectures, the entry of each architecture
    in [accuracies] is the full per-fold, per-epoch accuracy history that
    its call of [train] returned. *)
Lemma models_loop_accuracies ms st evs st' :
  models_loop batch_size lr epochs patience no_wandb ms st = (evs, Ok st') ->
  forall m,
    (In m ms ->
     exists ev t,
       train m batch_size lr epochs patience (negb no_wandb) = (ev, Ok t) /\
       dict_get (accuracies st') m = Some (accuracy_samples t)) /\
    (~ In m ms -> dict_get (accuracies st') m = dict_get (accuracies st) m).
Proof.
  revert st evs. induction ms as [|m0 ms IH]; intros st evs H m.
  - simpl in H. injection H as _ <-. split; [intros []|reflexivity].
  - simpl in H.
    destruct (train m0 _ _ _ _ _) as [ev0 [t0|e]] eqn:Et; [|discriminate].
    destruct (models_loop _ _ _ _ _ ms _) as [evs' res] eqn:El.
    injection H as _ ->.
    destruct (IH _ _ El m) as [IHin IHout].
    destruct (in_dec string_dec m ms) as [Hin|Hout].
    + split; [intros _; now apply IHin|].
      intros Hno. exfalso. apply Hno. now right.
    + split.
      * intros [->|Hin]; [|contradiction].
        exists ev0, t0. split; [exact Et|].
        rewrite (IHout Hout). simpl. apply dict_get_set_same.
      * intros Hno. rewrite (IHout Hout). simpl.
        apply dict_get_set_other. intros ->. apply Hno. now left.
Qed.

(** The cross-model test is run once, after the loop, on those histories. *)
Lemma main_all_anova_input evs st anova :
  main_all batch_size lr epochs patience no_wandb = (evs, Ok (st, anova)) ->
  anova = perform_anova (accuracies st) /\
  forall m, In m all_models ->
    exists ev t,
      train m batch_size lr epochs patience (negb no_wandb) = (ev, Ok t) /\
      dict_get (accuracies st) m = Some (accuracy_samples t).
Proof.
  unfold main_all.
  destruct (models_loop _ _ _ _ _ all_models all_init) as [ev [st0|e]] eqn:El;
    [|discriminate].
  destruct (summary_lines st0 (results st0)) as [lines|e]; [|discriminate].
  destruct (perform_anova (accuracies st0)) as [[f p] verdict] eqn:Ea.
  intros H.
  assert (Hst : st0 = st /\ (f, p, verdict) = anova).
  { destruct no_wandb.
    - injection H as _ <- <-. auto.
    - destruct (model_logs _ _) as [ev' [u|e]]; [|discriminate].
      injection H as _ <- <-. auto. }
  destruct Hst as [<- <-]. split; [now rewrite Ea|].
  intros m Hm. now apply (models_loop_accuracies _ _ _ _ El m).
Qed.

End AllFacts.

(** ** The epoch trainer *)

Section TrainerFacts.

Context {W : World}.
Variable Batch : Type.
Variable batches : Loader -> list Batch.
Variable train_batch : Model -> Optim -> Batch -> Model * Optim * (Q * Z * Z).

Local Abbreviation bloop := (EpochTrainer.batch_loop Batch train_batch).
Local Abbreviation trainer :=
  (EpochTrainer.train_one_epoch Batch batches train_batch).

Lemma percentage_bounds c t :
  0 <= c <= t -> 0 < t ->
  (0 <= EpochTrainer.percentage c t)%Q /\
  (EpochTrainer.percentage c t <= 100 # 1)%Q.
Proof.
  intros Hc Ht. unfold EpochTrainer.percentage.
  destruct t as [|t|t]; try lia.
  unfold Qle, Qdiv, Qmult, Qinv, inject_Z. cbn [Qnum Qden].
  rewrite ?Pos2Z.inj_mul. split; nia.
Qed.

(** X1: on a loader without batches [train_one_epoch] raises
    [ZeroDivisionError] (the division by [len(train_loader)]), having
    printed nothing. *)
Theorem trainer_empty_loader model train_loader optimizer epoch :
  batches train_loader = [] ->
  trainer model train_loader optimizer epoch =
  ([], inr EpochTrainer.ZeroDivisionError).
Proof.
  intros H. unfold EpochTrainer.train_one_epoch. rewrite H. reflexivity.
Qed.

Lemma batch_loop_counts epoch n i bs r :
  (forall m o b, In b bs ->
     let '(_, _, (_, c, size)) := train_batch m o b in
     0 <= c <= size /\ 0 < size) ->
  0 <= EpochTrainer.correct r <= EpochTrainer.total r ->
  exists lines r',
    bloop epoch n i bs r = (lines, inl r') /\
    0 <= EpochTrainer.correct r' <= EpochTrainer.total r' /\
    EpochTrainer.total r + Z.of_nat (length bs) <= EpochTrainer.total r' /\
    Forall (fun l => (0 <= EpochTrainer.pr_acc l)%Q /\
                     (EpochTrainer.pr_acc l <= 100 # 1)%Q) lines.
Proof.
  revert i r. induction bs as [|b bs IH]; intros i r Hb Hr.
  - exists [], r. simpl. repeat split; try lia. constructor.
  - cbn [EpochTrainer.batch_loop].
    pose proof (Hb (EpochTrainer.run_model r) (EpochTrainer.run_optimizer r)
                   b (or_introl eq_refl)) as Hstep.
    destruct (train_batch _ _ b) as [[m o] [[loss c] size]].
    destruct Hstep as [Hc Hsize].
    set (r' := EpochTrainer.mkRunning m o _ _ _).
    assert (Hr' : 0 <= EpochTrainer.correct r' <= EpochTrainer.total r')
      by (simpl; lia).
    destruct (IH (S i) r') as (lines & r2 & E & H2 & Hlen & Hall).
    { intros m' o' b' Hin. apply Hb. now right. }
    { exact Hr'. }
    assert (Htot : EpochTrainer.total r + Z.of_nat (length (b :: bs))
                   <= EpochTrainer.total r2).
    { simpl length. simpl in Hlen. lia. }
    destruct ((i + 1) mod 10 =? 0)%nat.
    + destruct (Z.eqb_spec (EpochTrainer.total r') 0) as [Hz|_];
        [simpl in Hz; lia|].
      rewrite E. do 2 eexists. split; [reflexivity|].
      repeat split; try lia; try apply H2.
      constructor; [|exact Hall]. simpl.
      apply percentage_bounds; simpl; lia.
    + rewrite E. do 2 eexists. split; [reflexivity|].
      repeat split; try lia; try apply H2. exact Hall.
Qed.

(** X2: when every batch of a non-empty loader reports at least one sample
    and no more correct predictions than samples, [train_one_epoch] returns,
    and the accuracy it returns, like every accuracy it prints, lies
    between 0 and 100. *)
Theorem trainer_accuracy_is_a_percentage model train_loader optimizer epoch :
  EpochTrainer.counts_samples Batch batches train_batch train_loader ->
  batches train_loader <> [] ->
  exists lines m o loss acc,
    trainer model train_loader optimizer epoch =
      (lines, inl (m, o, (loss, acc))) /\
    (0 <= acc)%Q /\ (acc <= 100 # 1)%Q /\
    Forall (fun l => (0 <= EpochTrainer.pr_acc l)%Q /\
                     (EpochTrainer.pr_acc l <= 100 # 1)%Q) lines.
Proof.
  intros Hcount Hne. unfold EpochTrainer.train_one_epoch.
  destruct (batch_loop_counts epoch (length (batches train_loader)) 0
              (batches train_loader)
              (EpochTrainer.mkRunning model optimizer (0 # 1)%Q 0 0))
    as (lines & r & E & Hr & Hlen & Hall).
  { exact Hcount. }
  { simpl. lia. }
  rewrite E. simpl in Hlen.
  destruct (batches train_loader) as [|b bs] eqn:Eb; [congruence|].
  simpl length in *. cbn [Nat.eqb].
  destruct (Z.eqb_spec (EpochTrainer.total r) 0) as [Hz|Hnz]; [lia|].
  do 5 eexists. split; [reflexivity|].
  destruct (percentage_bounds (EpochTrainer.correct r) (EpochTrainer.total r))
    as [H0 H100]; [exact Hr|lia|].
  repeat split; assumption.
Qed.

Lemma batch_loop_lines epoch n i bs r lines r' :
  bloop epoch n i bs r = (lines, inl r') ->
  map EpochTrainer.pr_batch lines =
    filter (fun j => (j mod 10 =? 0)%nat) (seq (S i) (length bs)) /\
  Forall (fun l => EpochTrainer.pr_epoch l = (epoch + 1)%nat /\
                   EpochTrainer.pr_batches l = n) lines.
Proof.
  revert i r lines. induction bs as [|b bs IH]; intros i r lines H.
  - simpl in H. injection H as <- _. split; [reflexivity|constructor].
  - cbn [EpochTrainer.batch_loop] in H.
    destruct (train_batch _ _ b) as [[m o] [[loss c] size]].
    simpl length. cbn [seq filter].
    replace (S i) with (i + 1)%nat by lia.
    destruct ((i + 1) mod 10 =? 0)%nat.
    + destruct (_ =? 0); [discriminate|].
      destruct (bloop epoch n (S i) bs _) as [ls res] eqn:E.
      injection H as <- ->.
      destruct (IH _ _ _ E) as [Hm Ha].
      replace (i + 1 + 1)%nat with (S (S i)) by lia.
      replace (S (i + 1)) with (S (S i)) by lia.
      simpl. rewrite Hm. split; [reflexivity|].
      constructor; [split; reflexivity|exact Ha].
    + destruct (IH _ _ _ H) as [Hm Ha].
      replace (S (i + 1)) with (S (S i)) by lia.
      split; assumption.
Qed.

(** X3: when [train_one_epoch] returns, it has printed one progress line
    after each batch whose 1-based number is a multiple of 10, and only
    those, in order; each line names epoch [epoch + 1] and the number of
    batches. *)
Theorem trainer_progress_every_ten model train_loader optimizer epoch lines
    res :
  trainer model train_loader optimizer epoch = (lines, inl res) ->
  map EpochTrainer.pr_batch lines =
    EpochTrainer.progress_batches (length (batches train_loader)) /\
  Forall (fun l => EpochTrainer.pr_epoch l = (epoch + 1)%nat /\
                   EpochTrainer.pr_batches l =
                     length (batches train_loader)) lines.
Proof.
  unfold EpochTrainer.train_one_epoch.
  destruct (bloop _ _ _ _ _) as [ls [r|e]] eqn:E; [|discriminate].
  destruct (_ =? 0)%nat; [discriminate|].
  destruct (_ =? 0); [discriminate|].
  intros H. injection H as <- _.
  exact (batch_loop_lines _ _ _ _ _ _ _ E).
Qed.

End TrainerFacts.

(** ** More about one fold *)

Section FoldExtras.

Context {W : World}.
Variables (run_name : string) (patience : Z) (use_wandb : bool).
Variables (fold : nat) (train_loader val_loader : Loader).
Variables (model_name : string) (lr : Q) (epochs : Z).
Variables (epoch_in : option nat) (val_acc_in : option Q).

Local Abbreviation body :=
  (epoch_body run_name patience use_wandb fold train_loader val_loader).
Local Abbreviation loop :=
  (epoch_loop run_name patience use_wandb fold train_loader val_loader).
Local Abbreviation after :=
  (state_after run_name patience use_wandb fold train_loader val_loader).
Local Abbreviation evs_after :=
  (events_after run_name patience use_wandb fold train_loader val_loader).
Local Abbreviation val := (epoch_val train_loader val_loader).
Local Abbreviation log := (epoch_log fold train_loader val_loader).
Local Abbreviation improved := (improves train_loader val_loader).
Local Abbreviation s0 := (fold_init model_name lr val_acc_in).
Local Abbreviation exit :=
  (fold_exit_state run_name patience use_wandb fold train_loader val_loader
                   model_name lr epochs epoch_in val_acc_in).
Local Abbreviation the_fold :=
  (run_fold run_name patience use_wandb fold train_loader val_loader
            model_name lr epochs epoch_in val_acc_in).

Lemma best_step n s : (best_val_acc (after n s) <= best_val_acc (after (S n) s))%Q.
Proof.
  rewrite after_S. destruct (early_stop (after n s)); [apply Qle_refl|].
  rewrite body_best.
  destruct (Qgt_bool_cases (vm_acc (val n (after n s)))
              (best_val_acc (after n s))) as [[E Hlt]|[E _]];
    unfold improves; rewrite E; [now apply Qlt_le_weak|apply Qle_refl].
Qed.

(** X4: within a fold the best validation accuracy never decreases from one
    epoch to a later one, and it is never below the initial 0.0. *)
Theorem best_never_decreases n k :
  let best_after i :=
    best_val_acc
      (state_after run_name patience use_wandb fold train_loader val_loader i
                   (fold_init model_name lr val_acc_in)) in
  (0 <= best_after n)%Q /\ (best_after n <= best_after (n + k)%nat)%Q.
Proof.
  cbv zeta.
  split.
  - now destruct (after_tracks run_name patience use_wandb fold train_loader
                    val_loader n s0 (init_tracks model_name lr val_acc_in))
      as ((H & _) & _).
  - induction k as [|k IH]; [rewrite Nat.add_0_r; apply Qle_refl|].
    rewrite Nat.add_succ_r. eapply Qle_trans; [exact IH|apply best_step].
Qed.

(** X5: with a patience of at least 1, a fold is never stopped before
    [patience] epochs have run: it runs at least min(budget, patience)
    epochs, and when the early-stop flag is down at the end it has run the
    whole budget. *)
Theorem never_stopped_before_patience :
  1 <= patience ->
  Z.min (Z.max epochs 0) patience <= Z.of_nat (length (accs (exit_state exit)))
  /\
  (early_stop (exit_state exit) = false ->
   length (accs (exit_state exit)) = Z.to_nat epochs).
Proof.
  intros Hp.
  destruct (exit_is_after run_name patience use_wandb fold train_loader
              val_loader model_name lr val_acc_in epochs epoch_in) as [-> _].
  set (n := Z.to_nat epochs).
  destruct (after_length run_name patience use_wandb fold train_loader
              val_loader n s0) as [_ Hlen].
  simpl in Hlen. split; [|exact Hlen].
  destruct (early_stop (after n s0)) eqn:E.
  - destruct (after_stops run_name patience use_wandb fold train_loader
                val_loader n s0 Hp (init_tracks model_name lr val_acc_in)
                (init_stops patience model_name lr val_acc_in Hp))
      as [Hiff _].
    destruct (after_tracks run_name patience use_wandb fold train_loader
                val_loader n s0 (init_tracks model_name lr val_acc_in))
      as (_ & _ & Hcnt & _).
    apply Hiff in E. lia.
  - rewrite (Hlen eq_refl). unfold n. lia.
Qed.

(** X6: with a patience of 0 or less, a fold with a budget runs exactly one
    epoch and sets the early-stop flag, whatever the accuracy. *)
Theorem nonpositive_patience_runs_one_epoch :
  patience <= 0 -> 1 <= epochs ->
  length (accs (exit_state exit)) = 1%nat /\
  early_stop (exit_state exit) = true.
Proof.
  intros Hp He.
  destruct (exit_is_after run_name patience use_wandb fold train_loader
              val_loader model_name lr val_acc_in epochs epoch_in) as [-> _].
  assert (H1 : early_stop (after 1 s0) = true /\
               length (accs (after 1 s0)) = 1%nat).
  { rewrite after_S, after_0. simpl early_stop.
    rewrite body_early_stop, body_counter, body_accs. simpl.
    unfold check_early_stop. split; [|reflexivity].
    destruct (improved 0 s0).
    - destruct (Z.leb_spec patience 0); [reflexivity|lia].
    - destruct (Z.leb_spec patience 1); [reflexivity|lia]. }
  destruct H1 as [Hstop Hlen].
  destruct (after_stopped run_name patience use_wandb fold train_loader
              val_loader 1 (Z.to_nat epochs) s0) as [-> _];
    [lia|exact Hstop|]. auto.
Qed.

Local Abbreviation best_accs := (flat_map best_saved_acc).

Lemma best_accs_log l : best_accs (log_events use_wandb l) = [].
Proof. destruct use_wandb; reflexivity. Qed.

Lemma best_accs_best m o e v :
  best_accs (best_events run_name use_wandb fold m o e v) = [v].
Proof. destruct use_wandb; reflexivity. Qed.

Lemma best_accs_setup m : best_accs (setup_events use_wandb m) = [].
Proof. destruct use_wandb; reflexivity. Qed.

Lemma best_accs_final m o e v :
  best_accs (final_events run_name use_wandb fold m o e v) = [].
Proof. destruct use_wandb; reflexivity. Qed.

Lemma increasing_snoc l v :
  increasing l -> (last l (0 # 1) < v)%Q \/ l = [] -> increasing (l ++ [v]).
Proof.
  induction l as [|a l IH]; intros Hl Hv; [exact I|].
  destruct l as [|b l].
  - simpl. destruct Hv as [Hv|Hv]; [|discriminate]. simpl in Hv. auto.
  - destruct Hl as [Hab Hl]. split; [exact Hab|].
    apply IH; [exact Hl|]. destruct Hv as [Hv|Hv]; [|discriminate].
    left. exact Hv.
Qed.

Lemma best_saved_after n :
  last (best_accs (evs_after n s0)) (0 # 1)%Q = best_val_acc (after n s0) /\
  increasing (best_accs (evs_after n s0)).
Proof.
  induction n as [|n [IHl IHi]]; [split; [reflexivity|exact I]|].
  rewrite after_S, evs_after_S.
  destruct (early_stop (after n s0)); [rewrite app_nil_r; auto|].
  rewrite body_events, body_best, !flat_map_app, best_accs_log.
  cbn [app].
  destruct (Qgt_bool_cases (vm_acc (val n (after n s0)))
              (best_val_acc (after n s0))) as [[E Hlt]|[E _]];
    unfold improves; rewrite E.
  - rewrite best_accs_best, last_last. split; [reflexivity|].
    apply increasing_snoc; [exact IHi|]. left. now rewrite IHl.
  - simpl. rewrite app_nil_r. auto.
Qed.

(** X7: the "best" checkpoints of a fold are written with strictly
    increasing accuracies, and the last one written, the one left on disk,
    holds the best validation accuracy that the fold reports (when none was
    written, that best accuracy is still the initial 0.0). *)
Theorem best_checkpoint_holds_best evs x :
  the_fold = (evs, Ok x) ->
  last (best_accs evs) (0 # 1)%Q = fr_best_val_acc (fe_result x) /\
  increasing (best_accs evs).
Proof.
  unfold run_fold. destruct (epoch_var _) as [e|]; [|discriminate].
  destruct (val_acc_var _) as [v|]; [|discriminate].
  intros H. injection H as <- <-. simpl fr_best_val_acc.
  rewrite !flat_map_app, best_accs_setup, best_accs_final, app_nil_r.
  cbn [app].
  destruct (exit_is_after run_name patience use_wandb fold train_loader
              val_loader model_name lr val_acc_in epochs epoch_in)
    as [-> ->].
  apply best_saved_after.
Qed.

Local Abbreviation logged := (flat_map epoch_logged).

Lemma logged_body e s : logged (snd (body e s)) = [log e s].
Proof.
  rewrite body_events, flat_map_app.
  assert (H1 : logged (log_events use_wandb (log e s)) = [log e s])
    by (destruct use_wandb; reflexivity).
  rewrite H1. destruct (improves _ _ _ _); [|reflexivity].
  unfold best_events. destruct use_wandb; reflexivity.
Qed.

Lemma record_is_logged e s :
  history (fst (body e s)) = logged_history (history s) [log e s].
Proof.
  rewrite body_history. unfold epoch_log, epoch_val.
  destruct (epoch_run _ _ _ _) as [[[[m o] sc] [tl ta]] v]. reflexivity.
Qed.

Lemma logged_history_app h a b :
  logged_history (logged_history h a) b = logged_history h (a ++ b).
Proof.
  unfold logged_history. simpl. now rewrite !map_app, <- !app_assoc.
Qed.

Lemma log_indices e s : lg_epoch (log e s) = e /\ lg_fold (log e s) = fold.
Proof.
  unfold epoch_log.
  destruct (epoch_run _ _ _ _) as [[[[m o] sc] [tl ta]] v]. auto.
Qed.

Lemma loop_logged n a c s :
  let r := loop (seq a n) c s in
  history (exit_state r) = logged_history (history s) (logged (loop_events r))
  /\
  map lg_epoch (logged (loop_events r)) =
    seq a (length (logged (loop_events r))) /\
  Forall (fun l => lg_fold l = fold) (logged (loop_events r)).
Proof.
  revert a c s. induction n as [|n IH]; intros a c s; cbn [seq epoch_loop].
  - simpl. split; [|split; [reflexivity|constructor]].
    unfold logged_history. simpl. rewrite !app_nil_r. now destruct (history s).
  - destruct (early_stop s).
    + simpl. split; [|split; [reflexivity|constructor]].
      unfold logged_history. simpl. rewrite !app_nil_r.
      now destruct (history s).
    + pose proof (logged_body a s) as Hl.
      pose proof (record_is_logged a s) as Hh.
      destruct (log_indices a s) as [He Hf].
      destruct (body a s) as [s' evs]. cbn [fst snd] in *.
      destruct (IH (S a) (Some a) s') as (H1 & H2 & H3).
      cbn [exit_state loop_events].
      rewrite flat_map_app, Hl, H1, Hh, logged_history_app.
      split; [reflexivity|]. simpl. rewrite He, H2.
      split; [reflexivity|]. constructor; [exact Hf|exact H3].
Qed.

(** X8: the history that a fold returns is exactly what it logged: each of
    the seven history lists is the list of the corresponding values passed
    to [log_metrics_to_wandb], epoch by epoch. *)
Theorem history_is_what_was_logged evs x :
  the_fold = (evs, Ok x) ->
  fr_history (fe_result x) = logged_history empty_history (logged evs).
Proof.
  unfold run_fold. destruct (epoch_var _) as [e|]; [|discriminate].
  destruct (val_acc_var _) as [v|]; [|discriminate].
  intros H. injection H as <- <-. simpl fr_history.
  rewrite !flat_map_app.
  assert (Hs : forall m, logged (setup_events use_wandb m) = [])
    by (intros m; destruct use_wandb; reflexivity).
  assert (Hf : forall m o e' v', logged (final_events run_name use_wandb fold
                                           m o e' v') = [])
    by (intros; destruct use_wandb; reflexivity).
  rewrite Hs, Hf, app_nil_r. cbn [app].
  unfold fold_exit_state, range.
  now destruct (loop_logged (Z.to_nat epochs) 0 epoch_in s0) as [-> _].
Qed.

(** X9: the calls of [log_metrics_to_wandb] in a fold carry the fold's
    index and the consecutive epoch indices 0, 1, 2, ... in call order,
    whether the fold returns or raises. *)
Theorem logged_epochs_are_consecutive :
  let logs :=
    flat_map epoch_logged
      (fst (run_fold run_name patience use_wandb fold train_loader val_loader
                     model_name lr epochs epoch_in val_acc_in)) in
  map lg_epoch logs = seq 0 (length logs) /\
  Forall (fun l => lg_fold l = fold) logs.
Proof.
  cbv zeta.
  assert (Hs : forall m, logged (setup_events use_wandb m) = [])
    by (intros m; destruct use_wandb; reflexivity).
  assert (Hf : forall m o e' v', logged (final_events run_name use_wandb fold
                                           m o e' v') = [])
    by (intros; destruct use_wandb; reflexivity).
  assert (H : logged (fst the_fold) = logged (loop_events exit)).
  { unfold run_fold. destruct (epoch_var _) as [e|].
    - destruct (val_acc_var _) as [v|]; cbn [fst];
        rewrite ?flat_map_app, Hs, ?Hf, ?app_nil_r; reflexivity.
    - cbn [fst]. rewrite flat_map_app, Hs. reflexivity. }
  rewrite H. unfold fold_exit_state, range.
  now destruct (loop_logged (Z.to_nat epochs) 0 epoch_in s0) as (_ & ? & ?).
Qed.

End FoldExtras.

(** ** More about the run *)

Section Closure.

Context {W : World}.
Variables (run_name : string) (patience : Z) (use_wandb : bool).
Variable P : list Event -> Prop.
Hypothesis P_closed : app_closed P.

Section OneFold.

Variables (fold : nat) (train_loader val_loader : Loader).
Hypothesis P_log : forall l, P (log_events use_wandb l).
Hypothesis P_best :
  forall m o e v, P (best_events run_name use_wandb fold m o e v).

Lemma body_closed e s :
  P (snd (epoch_body run_name patience use_wandb fold train_loader val_loader
                     e s)).
Proof.
  rewrite body_events. apply P_closed; [apply P_log|].
  destruct (improves _ _ _ _); [apply P_best|apply P_closed].
Qed.

Lemma loop_closed es c s :
  P (loop_events (epoch_loop run_name patience use_wandb fold train_loader
                             val_loader es c s)).
Proof.
  revert c s. induction es as [|e es IH]; intros c s; simpl;
    [apply P_closed|].
  destruct (early_stop s); simpl; [apply P_closed|].
  pose proof (body_closed e s) as Hb.
  destruct (epoch_body _ _ _ _ _ _ e s) as [s' evs]. simpl in *.
  apply P_closed; [exact Hb|apply IH].
Qed.

Hypothesis P_setup : forall m, P (setup_events use_wandb m).
Hypothesis P_final :
  forall m o e v, P (final_events run_name use_wandb fold m o e v).

Lemma run_fold_closed model_name lr epochs epoch_in val_acc_in :
  P (fst (run_fold run_name patience use_wandb fold train_loader val_loader
                   model_name lr epochs epoch_in val_acc_in)).
Proof.
  unfold run_fold, fold_exit_state.
  assert (H : P (setup_events use_wandb
                   (fs_model (fold_init model_name lr val_acc_in)) ++
                 loop_events
                   (epoch_loop run_name patience use_wandb fold train_loader
                      val_loader (range epochs) epoch_in
                      (fold_init model_name lr val_acc_in)))).
  { apply P_closed; [apply P_setup|apply loop_closed]. }
  destruct (epoch_var _) as [e|]; [|exact H].
  destruct (val_acc_var _) as [v|]; [|exact H].
  cbn [fst]. apply P_closed; [exact H|apply P_final].
Qed.

End OneFold.

End Closure.

Section RunExtras.

Context {W : World}.
Variables (model_name : string) (batch_size : Z) (lr : Q).
Variables (epochs patience : Z) (use_wandb : bool).

Local Abbreviation folds :=
  (fold_loop model_name lr epochs patience use_wandb).
Local Abbreviation the_run :=
  (train model_name batch_size lr epochs patience use_wandb).
Local Abbreviation loaders := (get_kfold_data_loaders batch_size).
Local Abbreviation name := (run_name model_name).

Lemma fold_loop_closed (P : list Event -> Prop) fs r :
  app_closed P ->
  (forall fold tl vl epoch_in val_acc_in, In (fold, (tl, vl)) fs ->
     P (fst (run_fold name patience use_wandb fold tl vl model_name lr epochs
                      epoch_in val_acc_in))) ->
  P (fst (folds fs r)).
Proof.
  intros Hc. revert r. induction fs as [|[fold [tl vl]] fs IH]; intros r Hf.
  - apply Hc.
  - cbn [fold_loop].
    pose proof (Hf fold tl vl (run_epoch r) (run_val_acc r)
                   (or_introl eq_refl)) as H1.
    destruct (run_fold _ _ _ _ _ _ _ _ _ _ _) as [evs [x|e]]; [|exact H1].
    specialize (IH (run_append r x)
                   (fun f a b c d Hin => Hf f a b c d (or_intror Hin))).
    destruct (folds fs _) as [evs' res]. cbn [fst] in *.
    apply Hc; assumption.
Qed.

Lemma enumerate_index {A : Type} (l : list A) i x :
  In (i, x) (enumerate l) -> (i < length l)%nat.
Proof.
  unfold enumerate. intros H. apply in_combine_l in H.
  apply in_seq in H. lia.
Qed.

(** Whatever holds of the calls of every part of a run, and of
    concatenations, holds of the calls of the whole loop over the folds. *)
Lemma folds_closed (P : list Event -> Prop) :
  app_closed P ->
  (forall l, P (log_events use_wandb l)) ->
  (forall m, P (setup_events use_wandb m)) ->
  (forall fold m o e v, (fold < length loaders)%nat ->
     P (best_events name use_wandb fold m o e v)) ->
  (forall fold m o e v, (fold < length loaders)%nat ->
     P (final_events name use_wandb fold m o e v)) ->
  P (fst (folds (enumerate loaders) run_init)).
Proof.
  intros Hc Hl Hs Hb Hf. apply fold_loop_closed; [exact Hc|].
  intros fold tl vl ein vin Hin. apply enumerate_index in Hin.
  apply run_fold_closed; auto.
Qed.

Lemma train_closed (P : list Event -> Prop) :
  app_closed P ->
  (forall l, P (log_events use_wandb l)) ->
  (forall m, P (setup_events use_wandb m)) ->
  (forall fold m o e v, (fold < length loaders)%nat ->
     P (best_events name use_wandb fold m o e v)) ->
  (forall fold m o e v, (fold < length loaders)%nat ->
     P (final_events name use_wandb fold m o e v)) ->
  P (init_events model_name batch_size lr epochs patience use_wandb) ->
  (forall t, P (finish_events use_wandb t)) ->
  P (fst the_run).
Proof.
  intros Hc Hl Hs Hb Hf Hi Hfin.
  pose proof (folds_closed P Hc Hl Hs Hb Hf) as H.
  unfold train. destruct (folds _ run_init) as [evs [r|e]]; cbn [fst] in *.
  - apply Hc; [exact Hi|]. apply Hc; [exact H|apply Hfin].
  - apply Hc; [exact Hi|exact H].
Qed.

Lemma forall_closed (Q : Event -> Prop) : app_closed (Forall Q).
Proof.
  split; [constructor|]. intros a b Ha Hb. apply Forall_app. auto.
Qed.

(** X10: every checkpoint that a run writes or uploads lies under the run's
    own name and carries a fold number between 1 and the number of folds. *)
Theorem checkpoint_paths_in_range :
  Forall (fun p => ck_run p = name /\
                   (1 <= ck_fold p <= length loaders)%nat)
         (flat_map saved_path (fst the_run) ++
          flat_map uploaded_path (fst the_run)).
Proof.
  apply (train_closed
           (fun evs => Forall (fun p => ck_run p = name /\
                                 (1 <= ck_fold p <= length loaders)%nat)
                         (flat_map saved_path evs ++
                          flat_map uploaded_path evs))).
  - split; [constructor|]. intros a b Ha Hb.
    rewrite !flat_map_app. apply Forall_app in Ha, Hb.
    repeat (apply Forall_app; split); tauto.
  - intros l. destruct use_wandb; constructor.
  - intros m. destruct use_wandb; constructor.
  - intros fold m o e v Hlt. unfold best_events, best_path.
    destruct use_wandb; simpl; repeat constructor; simpl; lia.
  - intros fold m o e v Hlt. unfold final_events, final_path.
    destruct use_wandb; simpl; repeat constructor; simpl; lia.
  - unfold init_events. destruct use_wandb; constructor.
  - intros t. unfold finish_events. destruct use_wandb; constructor.
Qed.

(** X11: under the tracking service every checkpoint written is uploaded,
    in the same order, and nothing else is; under the local log writer
    nothing is uploaded. *)
Theorem uploads_follow_saves :
  flat_map uploaded_path (fst the_run) =
  if use_wandb then flat_map saved_path (fst the_run) else [].
Proof.
  apply (train_closed
           (fun evs => flat_map uploaded_path evs =
                       if use_wandb then flat_map saved_path evs else [])).
  - split; [now destruct use_wandb|]. intros a b Ha Hb.
    rewrite !flat_map_app, Ha, Hb. now destruct use_wandb.
  - intros l. now destruct use_wandb.
  - intros m. now destruct use_wandb.
  - intros fold m o e v _. now destruct use_wandb.
  - intros fold m o e v _. now destruct use_wandb.
  - unfold init_events. now destruct use_wandb.
  - intros t. unfold finish_events. now destruct use_wandb.
Qed.

(** X12: a run never mixes the backends: under the local log writer it makes
    no direct call of the tracking service's API and passes the flag [False]
    to every [log_metrics_to_wandb]; under the tracking service it makes no
    call to the log writer and passes [True]. *)
Theorem backends_never_mixed :
  Forall (fun ev =>
            (if use_wandb then is_writer_call ev else is_wandb_api ev) = false
            /\ Forall (eq use_wandb) (wandb_flags ev))
         (fst the_run).
Proof.
  apply (train_closed (Forall _)); [apply forall_closed|..].
  - intros l. destruct use_wandb; repeat constructor.
  - intros m. destruct use_wandb; repeat constructor.
  - intros fold m o e v _. destruct use_wandb; repeat constructor.
  - intros fold m o e v _. destruct use_wandb; repeat constructor.
  - unfold init_events. destruct use_wandb; repeat constructor.
  - intros t. unfold finish_events. destruct use_wandb; repeat constructor.
Qed.

(** X13: the calls that end a run ([wandb.log] of the summary,
    [wandb.finish], [writer.close]) are made only at the very end of a run
    that returns; a run that raises never closes its backend. *)
Theorem backend_closed_only_on_return :
  exists evs,
    Forall (fun ev => is_closing ev = false) evs /\
    fst the_run =
      evs ++ match snd the_run with
             | Ok t => finish_events use_wandb t
             | Raise _ => []
             end.
Proof.
  assert (H : Forall (fun ev => is_closing ev = false)
                (init_events model_name batch_size lr epochs patience
                             use_wandb ++
                 fst (folds (enumerate loaders) run_init))).
  { apply Forall_app. split.
    - unfold init_events. destruct use_wandb; repeat constructor.
    - apply (folds_closed (Forall _)); [apply forall_closed|..].
      + intros l. destruct use_wandb; repeat constructor.
      + intros m. destruct use_wandb; repeat constructor.
      + intros fold m o e v _. destruct use_wandb; repeat constructor.
      + intros fold m o e v _. destruct use_wandb; repeat constructor. }
  unfold train. destruct (folds _ run_init) as [evs [r|e]]; cbn [fst snd] in *.
  - eexists. split; [exact H|]. now rewrite app_assoc.
  - eexists. split; [exact H|]. now rewrite app_nil_r.
Qed.

Lemma fold_loop_numbers (l : list (Loader * Loader)) a r evs r' :
  folds (combine (seq a (length l)) l) r = (evs, Ok r') ->
  map fr_fold (fold_results r') =
  map fr_fold (fold_results r) ++ seq (a + 1) (length l).
Proof.
  revert a r evs. induction l as [|[tl vl] l IH]; intros a r evs H.
  - simpl in H. injection H as _ <-. simpl. now rewrite app_nil_r.
  - cbn [length seq combine fold_loop] in H.
    destruct (run_fold _ _ _ _ _ _ _ _ _ _ _) as [ev1 [x|e]] eqn:E;
      [|discriminate].
    destruct (folds _ (run_append r x)) as [ev2 res] eqn:E2.
    injection H as _ ->. rewrite (IH _ _ _ E2).
    assert (Hx : fr_fold (fe_result x) = (a + 1)%nat).
    { unfold run_fold in E. destruct (epoch_var _); [|discriminate].
      destruct (val_acc_var _); [|discriminate].
      injection E as _ <-. reflexivity. }
    cbn [run_append fold_results]. rewrite map_app. simpl.
    rewrite Hx, <- app_assoc. simpl.
    now replace (S a + 1)%nat with (S (a + 1)) by lia.
Qed.

(** X14: a run that returns reports its folds in order, numbered 1, 2, ...,
    k. *)
Theorem folds_numbered_from_one evs t :
  train model_name batch_size lr epochs patience use_wandb = (evs, Ok t) ->
  map fr_fold (tr_fold_results t) =
  seq 1 (length (get_kfold_data_loaders batch_size)).
Proof.
  unfold train.
  destruct (folds _ run_init) as [ev [r|e]] eqn:E; [|discriminate].
  intros H. injection H as _ <-. simpl.
  unfold enumerate in E. now rewrite (fold_loop_numbers _ _ _ _ _ E).
Qed.

Lemma train_raises_unbound :
  epochs <= 0 -> loaders <> [] ->
  the_run =
    (init_events model_name batch_size lr epochs patience use_wandb ++
     setup_events use_wandb (get_model model_name num_classes),
     Raise (UnboundLocalError "epoch")).
Proof.
  intros He Hk. unfold train.
  destruct loaders as [|[tl vl] rest]; [congruence|].
  unfold enumerate. simpl. now rewrite run_fold_faults.
Qed.

(** X15: with no fold at all, a run returns an empty list of results and
    [nan] for each of the four averages, and still opens and closes its
    backend. *)
Theorem no_folds_gives_nan :
  loaders = [] ->
  the_run =
    (init_events model_name batch_size lr epochs patience use_wandb ++
     finish_events use_wandb (mkTrainResult [] NaN NaN NaN NaN),
     Ok (mkTrainResult [] NaN NaN NaN NaN)).
Proof. intros H. unfold train. rewrite H. reflexivity. Qed.

End RunExtras.

Section LeakedLocals.

Context {W : World}.
Variables (run_name : string) (patience : Z) (use_wandb : bool).
Variables (fold : nat) (train_loader val_loader : Loader).
Variables (model_name : string) (lr : Q) (epochs : Z).

Lemma body_ignores_val_acc m o sc b c f h v v' e :
  epoch_body run_name patience use_wandb fold train_loader val_loader e
             (mkFold m o sc b c f h v) =
  epoch_body run_name patience use_wandb fold train_loader val_loader e
             (mkFold m o sc b c f h v').
Proof. reflexivity. Qed.

(** X17: a fold with a budget of at least one epoch does not depend on what
    an earlier fold left in the locals [epoch] and [val_acc]: its calls and
    its result are the same whatever those bindings are. *)
Theorem fold_ignores_leaked_locals epoch1 val_acc1 epoch2 val_acc2 :
  1 <= epochs ->
  run_fold run_name patience use_wandb fold train_loader val_loader
           model_name lr epochs epoch1 val_acc1 =
  run_fold run_name patience use_wandb fold train_loader val_loader
           model_name lr epochs epoch2 val_acc2.
Proof.
  intros He. unfold run_fold, fold_exit_state, range.
  destruct (Z.to_nat epochs) as [|n] eqn:En; [lia|].
  unfold fold_init. cbn [seq epoch_loop early_stop fs_model].
  rewrite (body_ignores_val_acc _ _ _ _ _ _ _ val_acc1 val_acc2).
  destruct (epoch_body _ _ _ _ _ _ _ _) as [s' evs]. reflexivity.
Qed.

End LeakedLocals.

Section AllExtras.

Context {W : World}.
Variables (batch_size : Z) (lr : Q) (epochs patience : Z) (no_wandb : bool).

(** X18: in "train all" mode a failure of the first architecture ends the
    whole program: with a budget of 0 epochs (or less) and at least one
    fold, only "efficientnet" is set up, the other six architectures are
    never trained, and no ANOVA is computed or logged. *)
Theorem train_all_stops_at_first_failure :
  epochs <= 0 -> get_kfold_data_loaders batch_size <> [] ->
  main_all batch_size lr epochs patience no_wandb =
    ((if no_wandb then []
      else [WandbInitAll "efficientnet" batch_size lr epochs patience]) ++
     fst (train "efficientnet" batch_size lr epochs patience (negb no_wandb)),
     Raise (UnboundLocalError "epoch")).
Proof.
  intros He Hk. unfold main_all, all_models. cbn [models_loop].
  now rewrite (train_raises_unbound "efficientnet" batch_size lr epochs
                 patience (negb no_wandb) He Hk).
Qed.

End AllExtras.

(** ** The "final" checkpoints *)

Section FinalExtras.

Context {W : World}.
Variables (model_name : string) (batch_size : Z) (lr : Q).
Variables (epochs patience : Z) (use_wandb : bool).

Local Abbreviation folds :=
  (fold_loop model_name lr epochs patience use_wandb).
Local Abbreviation the_run :=
  (train model_name batch_size lr epochs patience use_wandb).
Local Abbreviation loaders := (get_kfold_data_loaders batch_size).
Local Abbreviation name := (run_name model_name).

(** X19: a fold with a budget writes exactly one "final" checkpoint; it
    carries the model and optimizer as the loop left them and the accuracy
    of the last epoch that ran; the epoch index it carries is the index of
    that last epoch when the whole budget was used, and one more than it
    when the loop was left early. *)
Theorem final_checkpoint_records fold train_loader val_loader epoch_in
    val_acc_in :
  1 <= epochs ->
  let s := exit_state
             (fold_exit_state name patience use_wandb fold train_loader
                val_loader model_name lr epochs epoch_in val_acc_in) in
  let k := length (accs s) in
  exists h v,
    accs s = h ++ [v] /\
    saves FinalCk
      (fst (run_fold name patience use_wandb fold train_loader val_loader
                     model_name lr epochs epoch_in val_acc_in)) =
    [SaveCheckpoint (fs_model s) (fs_optimizer s)
       (if (k <? Z.to_nat epochs)%nat then k else (k - 1)%nat) v
       (final_path name fold)].
Proof.
  intros He s k.
  destruct (run_fold_returns name patience use_wandb fold train_loader
              val_loader model_name lr epochs epoch_in val_acc_in He)
    as (h & v & Hh & ->).
  exists h, v. split; [exact Hh|]. cbn [fst].
  rewrite !saves_app, saves_setup_events, saves_final_events.
  unfold fold_exit_state at 1. rewrite loop_no_final. cbn [app].
  fold s. fold k.
  assert (Hk : (k <= Z.to_nat epochs)%nat).
  { unfold k, s.
    destruct (exit_is_after name patience use_wandb fold train_loader
                val_loader model_name lr val_acc_in epochs epoch_in)
      as [-> _].
    destruct (after_length name patience use_wandb fold train_loader
                val_loader (Z.to_nat epochs)
                (fold_init model_name lr val_acc_in)) as [Hle _].
    simpl in Hle. exact Hle. }
  destruct (Nat.ltb_spec k (Z.to_nat epochs)); [reflexivity|].
  replace (Z.to_nat epochs - 1)%nat with (k - 1)%nat by lia. reflexivity.
Qed.

Lemma run_fold_final_fold fold tl vl epoch_in val_acc_in evs x :
  run_fold name patience use_wandb fold tl vl model_name lr epochs epoch_in
           val_acc_in = (evs, Ok x) ->
  flat_map final_fold evs = [(fold + 1)%nat].
Proof.
  unfold run_fold. destruct (epoch_var _) as [e|]; [|discriminate].
  destruct (val_acc_var _) as [v|]; [|discriminate].
  intros H. injection H as <- _. rewrite !flat_map_app.
  assert (H1 : flat_map final_fold
                 (loop_events
                    (fold_exit_state name patience use_wandb fold tl vl
                       model_name lr epochs epoch_in val_acc_in)) = []).
  { unfold fold_exit_state.
    apply (loop_closed name patience use_wandb
             (fun evs => flat_map final_fold evs = [])).
    - split; [reflexivity|]. intros a b Ha Hb.
      now rewrite flat_map_app, Ha, Hb.
    - intros l. now destruct use_wandb.
    - intros m o e' v'. now destruct use_wandb. }
  rewrite H1. now destruct use_wandb.
Qed.

Lemma fold_loop_final_folds (l : list (Loader * Loader)) a r evs r' :
  folds (combine (seq a (length l)) l) r = (evs, Ok r') ->
  flat_map final_fold evs = seq (a + 1) (length l).
Proof.
  revert a r evs. induction l as [|[tl vl] l IH]; intros a r evs H.
  - simpl in H. injection H as <- _. reflexivity.
  - cbn [length seq combine fold_loop] in H.
    destruct (run_fold _ _ _ _ _ _ _ _ _ _ _) as [ev1 [x|e]] eqn:E;
      [|discriminate].
    destruct (folds _ (run_append r x)) as [ev2 res] eqn:E2.
    injection H as <- ->.
    rewrite flat_map_app, (run_fold_final_fold _ _ _ _ _ _ _ E),
      (IH _ _ _ E2).
    simpl. now replace (S a + 1)%nat with (S (a + 1)) by lia.
Qed.

(** X20: a run that returns has written exactly one "final" checkpoint per
    fold, in fold order: the fold numbers of its "final" checkpoints are
    1, 2, ..., k. *)
Theorem one_final_checkpoint_per_fold evs t :
  the_run = (evs, Ok t) ->
  flat_map final_fold evs = seq 1 (length loaders).
Proof.
  unfold train.
  destruct (folds _ run_init) as [ev [r|e]] eqn:E; [|discriminate].
  intros H. injection H as <- _.
  unfold enumerate in E. rewrite !flat_map_app.
  rewrite (fold_loop_final_folds _ _ _ _ _ E).
  unfold init_events, finish_events.
  destruct use_wandb; simpl; now rewrite app_nil_r.
Qed.

End FinalExtras.

(** ** The scenarios, continued *)

Lemma trainer_empty_loader_witness :
  EpochTrainer.train_one_epoch (W := Script.world []) (Z * Z)
    (ScriptTrainer.batches []) ScriptTrainer.train_batch (0%nat, 0%nat)
    0%nat (1 # 100000)%Q 0 =
  ([], inr EpochTrainer.ZeroDivisionError).
Proof. apply trainer_empty_loader. reflexivity. Defined.

Lemma trainer_accuracy_is_a_percentage_witness :
  exists lines m o loss acc,
    EpochTrainer.train_one_epoch (W := Script.world []) (Z * Z)
      (ScriptTrainer.batches [(3, 4); (2, 4)]) ScriptTrainer.train_batch
      (0%nat, 0%nat) 0%nat (1 # 100000)%Q 0 =
    (lines, inl (m, o, (loss, acc))) /\
    (0 <= acc)%Q /\ (acc <= 100 # 1)%Q /\
    Forall (fun l => (0 <= EpochTrainer.pr_acc l)%Q /\
                     (EpochTrainer.pr_acc l <= 100 # 1)%Q) lines.
Proof.
  apply trainer_accuracy_is_a_percentage.
  - intros m o b [<-|[<-|[]]]; simpl; lia.
  - discriminate.
Defined.

Lemma trainer_progress_every_ten_witness :
  let run := EpochTrainer.train_one_epoch (W := Script.world []) (Z * Z)
               (ScriptTrainer.batches (repeat (3, 4) 25))
               ScriptTrainer.train_batch (0%nat, 0%nat) 0%nat
               (1 # 100000)%Q 0 in
  map EpochTrainer.pr_batch (fst run) = [10; 20]%nat.
Proof.
  intros run.
  refine (proj1 (trainer_progress_every_ten (W := Script.world []) (Z * Z)
                   (ScriptTrainer.batches (repeat (3, 4) 25))
                   ScriptTrainer.train_batch (0%nat, 0%nat) 0%nat
                   (1 # 100000)%Q 0%nat (fst run) _ _)).
  vm_compute. reflexivity.
Defined.

Lemma never_stopped_before_patience_witness :
  2 <= Z.of_nat
         (length
            (accs
               (exit_state
                  (fold_exit_state (W := Script.spec_scenario) "run" 2 false
                     0 0%nat 0%nat "vit" (1 # 100000) 5 None None)))).
Proof.
  exact (proj1 (never_stopped_before_patience (W := Script.spec_scenario)
                  "run" 2 false 0 0%nat 0%nat "vit" (1 # 100000)%Q 5 None
                  None ltac:(lia))).
Defined.

Lemma nonpositive_patience_runs_one_epoch_witness :
  let r := fold_exit_state (W := Script.spec_scenario) "run" 0 false 0 0%nat
             0%nat "vit" (1 # 100000) 3 None None in
  length (accs (exit_state r)) = 1%nat /\ early_stop (exit_state r) = true.
Proof.
  apply (nonpositive_patience_runs_one_epoch (W := Script.spec_scenario));
    lia.
Defined.

Lemma best_checkpoint_holds_best_witness :
  let run := run_fold (W := Script.spec_scenario) "run" 2 false 0 0%nat
               0%nat "vit" (1 # 100000) 5 None None in
  exists x,
    snd run = Ok x /\
    last (flat_map best_saved_acc (fst run)) (0 # 1)%Q =
      fr_best_val_acc (fe_result x) /\
    flat_map best_saved_acc (fst run) = [70 # 1; 72 # 1]%Q.
Proof.
  intros run. eexists. split; [vm_compute; reflexivity|].
  split; [|reflexivity].
  refine (proj1 (best_checkpoint_holds_best (W := Script.spec_scenario) "run"
                   2 false 0 0%nat 0%nat "vit" (1 # 100000)%Q 5 None None
                   (fst run) _ _)).
  vm_compute. reflexivity.
Defined.

Lemma history_is_what_was_logged_witness :
  let run := run_fold (W := Script.spec_scenario) "run" 2 false 0 0%nat
               0%nat "vit" (1 # 100000) 5 None None in
  exists x,
    snd run = Ok x /\
    fr_history (fe_result x) =
      logged_history empty_history (flat_map epoch_logged (fst run)).
Proof.
  intros run. eexists. split; [vm_compute; reflexivity|].
  refine (history_is_what_was_logged (W := Script.spec_scenario) "run" 2
            false 0 0%nat 0%nat "vit" (1 # 100000)%Q 5 None None (fst run) _
            _).
  vm_compute. reflexivity.
Defined.

Lemma folds_numbered_from_one_witness :
  let run := train (W := Script.two_folds) "vit" 32 (1 # 100000) 5 2 false in
  exists t, snd run = Ok t /\ map fr_fold (tr_fold_results t) = [1; 2]%nat.
Proof.
  intros run. eexists. split; [vm_compute; reflexivity|].
  refine (folds_numbered_from_one (W := Script.two_folds) "vit" 32
            (1 # 100000)%Q 5 2 false (fst run) _ _).
  vm_compute. reflexivity.
Defined.

Lemma no_folds_gives_nan_witness :
  snd (train (W := Script.world []) "vit" 32 (1 # 100000) 5 2 true) =
  Ok (mkTrainResult [] NaN NaN NaN NaN).
Proof.
  now rewrite (no_folds_gives_nan (W := Script.world []) "vit" 32
                 (1 # 100000)%Q 5 2 true eq_refl).
Defined.

Lemma fold_ignores_leaked_locals_witness :
  run_fold (W := Script.spec_scenario) "run" 2 false 1 0%nat 0%nat "vit"
           (1 # 100000) 5 (Some 4%nat) (Some (71 # 1)%Q) =
  run_fold (W := Script.spec_scenario) "run" 2 false 1 0%nat 0%nat "vit"
           (1 # 100000) 5 None None.
Proof.
  apply (fold_ignores_leaked_locals (W := Script.spec_scenario)). lia.
Defined.

Lemma train_all_stops_at_first_failure_witness :
  snd (main_all (W := Script.spec_scenario) 32 (1 # 100000) 0 2 false) =
  Raise (UnboundLocalError "epoch").
Proof.
  rewrite (train_all_stops_at_first_failure (W := Script.spec_scenario) 32
             (1 # 100000)%Q 0 2 false ltac:(lia)).
  - reflexivity.
  - vm_compute. discriminate.
Defined.

Lemma final_checkpoint_records_witness :
  exists m o v,
    saves FinalCk
      (fst (run_fold (W := Script.spec_scenario)
              (run_name (W := Script.spec_scenario) "vit") 2 false 0 0%nat
              0%nat "vit" (1 # 100000) 5 None None)) =
    [SaveCheckpoint m o 4 v
       (final_path (run_name (W := Script.spec_scenario) "vit") 0)].
Proof.
  destruct (final_checkpoint_records (W := Script.spec_scenario) "vit"
              (1 # 100000)%Q 5 2 false 0 0%nat 0%nat None None ltac:(lia))
    as (h & v & _ & Hs).
  do 2 eexists. exists v. exact Hs.
Defined.

Lemma one_final_checkpoint_per_fold_witness :
  flat_map final_fold
    (fst (train (W := Script.two_folds) "vit" 32 (1 # 100000) 5 2 true)) =
  [1; 2]%nat.
Proof.
  refine (one_final_checkpoint_per_fold (W := Script.two_folds) "vit" 32
            (1 # 100000)%Q 5 2 true _ _ _).
  vm_compute. reflexivity.
Defined.

(** ** The summary print of "train all" *)

Section RaggedFacts.

Context {W : World}.
Variables (batch_size : Z) (lr : Q) (epochs patience : Z) (no_wandb : bool).

Lemma dict_set_adds_key {V : Type} (d : dict V) k v :
  In k (map fst (dict_set d k v)).
Proof.
  induction d as [|[k' v'] d IH]; simpl; [now left|].
  destruct (String.eqb k' k) eqn:E; simpl.
  - left. now apply String.eqb_eq.
  - now right.
Qed.

Lemma dict_set_keeps_keys {V : Type} (d : dict V) k v k' :
  In k' (map fst d) -> In k' (map fst (dict_set d k v)).
Proof.
  induction d as [|[k0 v0] d IH]; simpl; [intros []|].
  destruct (String.eqb k0 k); simpl; intros [H|H]; auto.
Qed.

(** After the loop over the architectures, [results] has an entry for each
    of them and [precisions] holds the per-fold precision histories that its
    call of [train] returned. *)
Lemma models_loop_precisions ms st evs st' :
  models_loop batch_size lr epochs patience no_wandb ms st = (evs, Ok st') ->
  forall m,
    (In m ms ->
     In m (map fst (results st')) /\
     exists ev t,
       train m batch_size lr epochs patience (negb no_wandb) = (ev, Ok t) /\
       dict_get (precisions st') m = Some (precision_samples t)) /\
    (~ In m ms -> dict_get (precisions st') m = dict_get (precisions st) m) /\
    (In m (map fst (results st)) -> In m (map fst (results st'))).
Proof.
  revert st evs. induction ms as [|m0 ms IH]; intros st evs H m.
  - simpl in H. injection H as _ <-.
    split; [intros []|]. split; [reflexivity|auto].
  - simpl in H.
    destruct (train m0 _ _ _ _ _) as [ev0 [t0|e]] eqn:Et; [|discriminate].
    destruct (models_loop _ _ _ _ _ ms _) as [evs' res] eqn:El.
    injection H as _ ->.
    destruct (IH _ _ El m) as (IHin & IHout & IHkeys).
    assert (Hkeys : In m (map fst (results st)) ->
                    In m (map fst (results st'))).
    { intros Hm. apply IHkeys. simpl. now apply dict_set_keeps_keys. }
    destruct (in_dec string_dec m ms) as [Hin|Hout].
    + split; [intros _; now apply IHin|]. split; [|exact Hkeys].
      intros Hno. exfalso. apply Hno. now right.
    + split; [|split; [|exact Hkeys]].
      * intros [->|Hin]; [|contradiction]. split.
        -- apply IHkeys. simpl. apply dict_set_adds_key.
        -- exists ev0, t0. split; [exact Et|].
           rewrite (IHout Hout). simpl. apply dict_get_set_same.
      * intros Hno. rewrite (IHout Hout). simpl.
        apply dict_get_set_other. intros ->. apply Hno. now left.
Qed.

Lemma summary_lines_rows st rs lines :
  summary_lines st rs = Ok lines ->
  forall m, In m (map fst rs) ->
    exists ps, dict_get (precisions st) m = Some ps /\
               same_lengths ps = true.
Proof.
  revert lines. induction rs as [|[k v] rs IH]; intros lines H m Hm;
    [destruct Hm|].
  simpl in H.
  destruct (dict_get (precisions st) k) as [ps|] eqn:Ep; [|discriminate].
  unfold np_mean_rows in H at 1.
  destruct (same_lengths ps) eqn:Es; [|discriminate].
  destruct (dict_get (recalls st) k) as [rc|]; [|discriminate].
  destruct (np_mean_rows rc); [|discriminate].
  destruct (summary_lines st rs) as [ls|]; [|discriminate].
  destruct Hm as [<-|Hm]; [now exists ps|]. now apply (IH ls).
Qed.

(** "Train all" gets past its summary print, and so to the ANOVA, only if
    for every architecture all the folds ran the same number of epochs. *)
Lemma main_all_needs_equal_epochs evs r :
  main_all batch_size lr epochs patience no_wandb = (evs, Ok r) ->
  forall m, In m all_models ->
    exists ev t,
      train m batch_size lr epochs patience (negb no_wandb) = (ev, Ok t) /\
      same_lengths (precision_samples t) = true.
Proof.
  unfold main_all.
  destruct (models_loop _ _ _ _ _ all_models all_init) as [ev [st|e]] eqn:El;
    [|discriminate].
  destruct (summary_lines st (results st)) as [lines|e] eqn:Es;
    [|discriminate].
  intros _ m Hm.
  destruct (models_loop_precisions _ _ _ _ El m)
    as (Hin & _ & _).
  destruct (Hin Hm) as (Hkey & ev' & t & Ht & Hp).
  destruct (summary_lines_rows _ _ _ Es m Hkey) as (ps & Hps & Hsame).
  exists ev', t. split; [exact Ht|]. congruence.
Qed.

End RaggedFacts.

(** C8 (the code departs from it): when the two folds of an architecture run
    4 and 5 epochs, every architecture is trained, but the summary print of
    line 312 takes [np.mean] of precision histories of different lengths and
    raises; [perform_anova] is never called and no ANOVA is reported. *)
Lemma anova_skipped_on_ragged_folds :
  let run := main_all (W := ragged_folds) 32 (1 # 100000) 5 2 false in
  snd run = Raise ValueError /\
  Forall (fun ev => match ev with
                    | WandbLogAnova _ _ _ => False
                    | _ => True
                    end) (fst run) /\
  map (fun ev => match ev with WandbInitAll m _ _ _ _ => [m] | _ => [] end)
      (filter (fun ev => match ev with
                         | WandbInitAll _ _ _ _ _ => true
                         | _ => false
                         end) (fst run)) =
    map (fun m => [m]) all_models /\
  exists t,
    snd (train (W := ragged_folds) "efficientnet" 32 (1 # 100000) 5 2 true) =
      Ok t /\
    map (@length Q) (accuracy_samples t) = [4; 5]%nat.
Proof.
  split; [vm_compute; reflexivity|].
  split; [vm_compute; repeat constructor|].
  split; [vm_compute; reflexivity|].
  eexists. split; [vm_compute; reflexivity|]. reflexivity.
Qed.
